(** * Synthea to OMOP CDM mapping engine and de-identification script

    A shallow embedding of
      - [etl_omop_fhir/etl_engine/base_etl.py]            (class OMOPETLBase),
      - [etl_omop_fhir/etl_engine/synthea_omop_mapper.py] (class SyntheaOMOPMapper),
      - [datashield_vignette/prepare_data.py]             (the de-identification script),
    followed by the properties the specification states about them.

    Conventions.
      - A pandas column is a [list]; all frames of one stage share the
        RangeIndex [0..N-1], so column assignment aligns row by row.
      - An empty cell (NaN, NaT, None) is [None].  Columns the source data model
        marks optional hold [option] cells; the others hold a value in every row.
      - [self.person_id_map] (a Python dict) is a [gmap string Z].
      - A stage is a computation in the monad [M]: it threads the mapper's
        state and may raise. *)

From Stdlib Require Import ZArith String Ascii List.
From stdpp Require Import base option list gmap strings.

Local Open Scope string_scope.
Local Open Scope Z_scope.

(** ** The part of pandas the code uses *)

Module Pandas.

(** A [datetime64[ns]] value: nanoseconds since the epoch.  NaT is [None]. *)
Definition Timestamp := Z.
(** A [timedelta64[ns]] value. *)
Definition Timedelta := Z.

Definition ns_per_day : Z := 86400 * 1000000000.

(** [pd.Timedelta(days=n)] *)
Definition Timedelta_of_days (n : Z) : Timedelta := n * ns_per_day.

(** [.dt.days] of a timedelta: the whole days, rounded towards minus
    infinity as Python's [timedelta] normalises them. *)
Definition dt_days (td : Timedelta) : Z := td `div` ns_per_day.

(** [range(a, b)] *)
Definition range (a b : Z) : list Z := seqZ a (b - a).

(** [len(df)] *)
Definition len {A} (df : list A) : Z := Z.of_nat (length df).

(** [series.map(d)] for a dict [d]: a key that is absent, or an empty
    cell, gives NaN. *)
Definition Series_map {V} (d : gmap string V) (s : list (option string))
  : list (option V) :=
  (λ c, c ≫= (d !!.)) <$> s.

(** [series.fillna(v)] for a scalar [v]. *)
Definition fillna {V} (v : V) (s : list (option V)) : list V :=
  default v <$> s.

(** [series.fillna(other)] for a series [other] on the same index. *)
Definition fillna_series {V} (s : list (option V)) (other : list V) : list V :=
  zip_with (λ c o, default o c) s other.

(** [series.isna()] *)
Definition isna {V} (s : list (option V)) : list bool :=
  (λ c, match c with None => true | Some _ => false end) <$> s.

(** The calendar and the date parser are pandas' own; the mapper is
    verified for any of them.  [to_datetime_scalar] is what
    [pd.to_datetime] does to one populated cell: [None] when the text is
    not a date. *)
Class Calendar := {
  to_datetime_scalar : string → option Timestamp;
  dt_year : Timestamp → Z;
  dt_month : Timestamp → Z;
  dt_day : Timestamp → Z
}.

End Pandas.
Import Pandas.

(** ** Source tables (the Synthea CSV files) *)

Module Patients.
Record row := {
  Id : string;
  GENDER : option string;
  BIRTHDATE : string;
  DEATHDATE : option string;
  RACE : option string;
  ETHNICITY : option string
}.
End Patients.

Module Conditions.
Record row := {
  PATIENT : string;
  CODE : string;
  START : string;
  STOP : option string
}.
End Conditions.

Module Medications.
Record row := {
  PATIENT : string;
  CODE : string;
  START : string;
  STOP : option string;
  REASONCODE : option string
}.
End Medications.

(** The directory [self.synthea_dir]: the frames [pd.read_csv] returns for the
    three files the stages read, each present with the columns above. *)
Record synthea_dir := {
  patients_csv : list Patients.row;
  conditions_csv : list Conditions.row;
  medications_csv : list Medications.row
}.

(** ** Target tables (OMOP CDM), one record field per column the stage assigns *)

Module Person.
Record row := {
  person_id : Z;
  gender_concept_id : Z;
  year_of_birth : Z;
  month_of_birth : Z;
  day_of_birth : Z;
  birth_datetime : Timestamp;
  race_concept_id : Z;
  ethnicity_concept_id : Z;
  location_id : option Z;
  provider_id : option Z;
  care_site_id : option Z;
  person_source_value : string;
  gender_source_value : option string;
  race_source_value : option string;
  ethnicity_source_value : option string;
  gender_source_concept_id : Z;
  race_source_concept_id : Z;
  ethnicity_source_concept_id : Z
}.
End Person.

Module ObservationPeriod.
Record row := {
  observation_period_id : Z;
  person_id : option Z;
  observation_period_start_date : Timestamp;
  observation_period_end_date : Timestamp;
  period_type_concept_id : Z
}.
End ObservationPeriod.

Module ConditionOccurrence.
Record row := {
  condition_occurrence_id : Z;
  person_id : option Z;
  condition_concept_id : Z;
  condition_source_value : string;
  condition_source_concept_id : Z;
  condition_start_date : Timestamp;
  condition_start_datetime : Timestamp;
  condition_end_date : option Timestamp;
  condition_end_datetime : option Timestamp;
  condition_type_concept_id : Z;
  condition_status_concept_id : Z;
  condition_status_source_value : option string;
  stop_reason : option string;
  provider_id : option Z;
  visit_occurrence_id : option Z;
  visit_detail_id : option Z
}.
End ConditionOccurrence.

Module DrugExposure.
Record row := {
  drug_exposure_id : Z;
  person_id : option Z;
  drug_concept_id : Z;
  drug_source_value : string;
  drug_source_concept_id : Z;
  drug_exposure_start_date : Timestamp;
  drug_exposure_start_datetime : Timestamp;
  drug_exposure_end_date : Timestamp;
  drug_exposure_end_datetime : Timestamp;
  drug_type_concept_id : Z;
  stop_reason : option string;
  refills : option Z;
  quantity : option Z;
  days_supply : Z;
  sig : option string;
  route_concept_id : Z;
  lot_number : option string;
  provider_id : option Z;
  visit_occurrence_id : option Z;
  visit_detail_id : option Z;
  route_source_value : option string;
  dose_unit_source_value : option string
}.
End DrugExposure.

(** A frame handed to [bulk_insert]. *)
Inductive DataFrame :=
  | PersonFrame (rows : list Person.row)
  | ObservationPeriodFrame (rows : list ObservationPeriod.row)
  | ConditionOccurrenceFrame (rows : list ConditionOccurrence.row)
  | DrugExposureFrame (rows : list DrugExposure.row).

Definition frame_len (df : DataFrame) : Z :=
  match df with
  | PersonFrame rows => len rows
  | ObservationPeriodFrame rows => len rows
  | ConditionOccurrenceFrame rows => len rows
  | DrugExposureFrame rows => len rows
  end.

(** ** The mapper's state and its monad *)

(** The exception [pd.to_datetime] raises on text that is not a date. *)
Inductive exn :=
  | DateParseError.

Inductive result (A : Type) :=
  | Ok (a : A)
  | Raise (e : exn).
Arguments Ok {A} a.
Arguments Raise {A} e.

(** What a stage can touch: the dict [self.person_id_map], the store behind
    [self.engine], and the records the module's logger has emitted at level
    WARNING ([logger.info] lines are not kept: nothing reads them).  The store
    is a sink: [db] lists, in order, the appends made through [to_sql] with
    [if_exists="append"]; it accepts every insert. *)
Record state := {
  person_id_map : gmap string Z;
  db : list (string * DataFrame);
  warnings : list string
}.

Definition M (A : Type) : Type := state → result A * state.

#[global] Instance M_ret : MRet M := λ A a st, (Ok a, st).
#[global] Instance M_bind : MBind M := λ A B f m st,
  match m st with
  | (Ok a, st') => f a st'
  | (Raise e, st') => (Raise e, st')
  end.

Definition raise {A} (e : exn) : M A := λ st, (Raise e, st).
Definition gets {A} (f : state → A) : M A := λ st, (Ok (f st), st).
Definition modify (f : state → state) : M unit := λ st, (Ok tt, f st).

(** [logger.warning(msg)] *)
Definition logger_warning (msg : string) : M unit :=
  modify (λ st, {| person_id_map := person_id_map st; db := db st;
                   warnings := warnings st ++ [msg] |}).

(** [SyntheaOMOPMapper.__init__]: a mapper over a store starts with an empty
    identity map. *)
Definition new_mapper (store : list (string * DataFrame)) : state :=
  {| person_id_map := ∅; db := store; warnings := [] |}.

(** ** OMOPETLBase *)

(** [read_csv_to_dataframe]: the frame of the file. *)
Definition read_csv_to_dataframe {A} (csv : list A) : M (list A) := mret csv.

(** [bulk_insert]: [df.to_sql(..., if_exists="append")] appends the frame to
    the named table.  The [except] branch, which logs and re-raises what the
    store raised, is never taken by a store that accepts every insert. *)
Definition bulk_insert (table_name : string) (df : DataFrame) : M unit :=
  modify (λ st, {| person_id_map := person_id_map st;
                   db := db st ++ [(table_name, df)];
                   warnings := warnings st |}).

(** [SELECT COUNT( * ) FROM table]: the rows appended to the named table. *)
Definition count_rows (table : string) (store : list (string * DataFrame)) : Z :=
  foldr (λ entry n, if decide (entry.1 = table) then frame_len entry.2 + n else n) 0 store.

(** [validate_counts]: [target_count >= source_count]. *)
Definition validate_counts (source_count : Z) (target_table : string) : M bool :=
  target_count ← gets (λ st, count_rows target_table (db st));
  mret (bool_decide (source_count ≤ target_count)).

(** ** SyntheaOMOPMapper *)

(** The dict literals of [map_person]. *)
Definition gender_concepts : gmap string Z :=
  list_to_map [("F", 8532); ("M", 8507); ("female", 8532); ("male", 8507)].
Definition race_concepts : gmap string Z :=
  list_to_map [("white", 8527); ("black", 8516); ("asian", 8515); ("other", 8522)].
Definition ethnicity_concepts : gmap string Z :=
  list_to_map [("hispanic", 38003563); ("nonhispanic", 38003564)].

(** The loop [for synthea_id, omop_id in zip(...): self.person_id_map[synthea_id] = omop_id]. *)
Definition store_mapping (pairs : list (string * Z)) (m : gmap string Z) : gmap string Z :=
  foldl (λ m kv, <[kv.1 := kv.2]> m) m pairs.

Definition set_person_id_map (f : gmap string Z → gmap string Z) : M unit :=
  modify (λ st, {| person_id_map := f (person_id_map st); db := db st;
                   warnings := warnings st |}).

Section Mapper.
Context `{Calendar}.

(** [pd.to_datetime(column)]: raises when a cell is not a date. *)
Definition to_datetime (col : list string) : M (list Timestamp) :=
  match mapM to_datetime_scalar col with
  | Some ts => mret ts
  | None => raise DateParseError
  end.

(** [pd.to_datetime(column, errors="coerce")]: NaT where a cell is empty or
    not a date. *)
Definition to_datetime_coerce (col : list (option string)) : list (option Timestamp) :=
  (λ c, c ≫= to_datetime_scalar) <$> col.

Definition map_person (dir : synthea_dir) : M unit :=
  patients ← read_csv_to_dataframe (patients_csv dir);
  (* Generate sequential person_ids *)
  let person_id := range 1 (len patients + 1) in
  (* Store mapping for later use *)
  set_person_id_map (store_mapping (zip (Patients.Id <$> patients) person_id));;
  let gender_concept_id :=
    fillna 0 (Series_map gender_concepts (Patients.GENDER <$> patients)) in
  (* Birth date components *)
  BIRTHDATE ← to_datetime (Patients.BIRTHDATE <$> patients);
  let race_concept_id :=
    fillna 0 (Series_map race_concepts (Patients.RACE <$> patients)) in
  let ethnicity_concept_id :=
    fillna 0 (Series_map ethnicity_concepts (Patients.ETHNICITY <$> patients)) in
  let omop_person :=
    (λ i, {| Person.person_id := person_id !!! i;
             Person.gender_concept_id := gender_concept_id !!! i;
             Person.year_of_birth := dt_year (BIRTHDATE !!! i);
             Person.month_of_birth := dt_month (BIRTHDATE !!! i);
             Person.day_of_birth := dt_day (BIRTHDATE !!! i);
             Person.birth_datetime := BIRTHDATE !!! i;
             Person.race_concept_id := race_concept_id !!! i;
             Person.ethnicity_concept_id := ethnicity_concept_id !!! i;
             Person.location_id := None;
             Person.provider_id := None;
             Person.care_site_id := None;
             Person.person_source_value := (Patients.Id <$> patients) !!! i;
             Person.gender_source_value := (Patients.GENDER <$> patients) !!! i;
             Person.race_source_value := (Patients.RACE <$> patients) !!! i;
             Person.ethnicity_source_value := (Patients.ETHNICITY <$> patients) !!! i;
             Person.gender_source_concept_id := 0;
             Person.race_source_concept_id := 0;
             Person.ethnicity_source_concept_id := 0 |})
    <$> seq 0 (length person_id) in
  (* Insert into database *)
  bulk_insert "person" (PersonFrame omop_person).

Definition map_observation_period (now : Timestamp) (dir : synthea_dir) : M unit :=
  patients ← read_csv_to_dataframe (patients_csv dir);
  let observation_period_id := range 1 (len patients + 1) in
  (* Map to OMOP person_id *)
  m ← gets person_id_map;
  let person_id := Series_map m (Some <$> (Patients.Id <$> patients)) in
  BIRTHDATE ← to_datetime (Patients.BIRTHDATE <$> patients);
  (* If death date exists, use it; otherwise use current date *)
  let DEATHDATE := to_datetime_coerce (Patients.DEATHDATE <$> patients) in
  let observation_period_end_date := fillna now DEATHDATE in
  let obs_period :=
    (λ i, {| ObservationPeriod.observation_period_id := observation_period_id !!! i;
             ObservationPeriod.person_id := person_id !!! i;
             ObservationPeriod.observation_period_start_date := BIRTHDATE !!! i;
             ObservationPeriod.observation_period_end_date :=
               observation_period_end_date !!! i;
             ObservationPeriod.period_type_concept_id := 44814724 |})
    <$> seq 0 (length observation_period_id) in
  bulk_insert "observation_period" (ObservationPeriodFrame obs_period).

Definition map_condition_occurrence (dir : synthea_dir) : M unit :=
  conditions ← read_csv_to_dataframe (conditions_csv dir);
  if bool_decide (len conditions = 0) then
    logger_warning "  ⚠ No conditions found in CSV"
  else
    let condition_occurrence_id := range 1 (len conditions + 1) in
    (* Map patient IDs *)
    m ← gets person_id_map;
    let person_id := Series_map m (Some <$> (Conditions.PATIENT <$> conditions)) in
    (* Dates *)
    START ← to_datetime (Conditions.START <$> conditions);
    (* End date (if available) *)
    let STOP := to_datetime_coerce (Conditions.STOP <$> conditions) in
    (* Status (active = still present) *)
    let condition_status_concept_id :=
      (λ b : bool, if b then 4203942 else 4230359) <$> isna STOP in
    let omop_cond :=
      (λ i, {| ConditionOccurrence.condition_occurrence_id := condition_occurrence_id !!! i;
               ConditionOccurrence.person_id := person_id !!! i;
               ConditionOccurrence.condition_concept_id := 0;
               ConditionOccurrence.condition_source_value :=
                 (Conditions.CODE <$> conditions) !!! i;
               ConditionOccurrence.condition_source_concept_id := 0;
               ConditionOccurrence.condition_start_date := START !!! i;
               ConditionOccurrence.condition_start_datetime := START !!! i;
               ConditionOccurrence.condition_end_date := STOP !!! i;
               ConditionOccurrence.condition_end_datetime := STOP !!! i;
               ConditionOccurrence.condition_type_concept_id := 32020;
               ConditionOccurrence.condition_status_concept_id :=
                 condition_status_concept_id !!! i;
               ConditionOccurrence.condition_status_source_value := None;
               ConditionOccurrence.stop_reason := None;
               ConditionOccurrence.provider_id := None;
               ConditionOccurrence.visit_occurrence_id := None;
               ConditionOccurrence.visit_detail_id := None |})
      <$> seq 0 (length condition_occurrence_id) in
    bulk_insert "condition_occurrence" (ConditionOccurrenceFrame omop_cond).

Definition map_drug_exposure (dir : synthea_dir) : M unit :=
  meds ← read_csv_to_dataframe (medications_csv dir);
  if bool_decide (len meds = 0) then
    logger_warning "  ⚠ No medications found in CSV"
  else
    let drug_exposure_id := range 1 (len meds + 1) in
    (* Map patient IDs *)
    m ← gets person_id_map;
    let person_id := Series_map m (Some <$> (Medications.PATIENT <$> meds)) in
    (* Dates *)
    START ← to_datetime (Medications.START <$> meds);
    let STOP := to_datetime_coerce (Medications.STOP <$> meds) in
    (* If no stop date, assume same as start *)
    let drug_exposure_end_date := fillna_series STOP START in
    let days_supply :=
      dt_days <$> zip_with Z.sub drug_exposure_end_date START in
    let omop_drug :=
      (λ i, {| DrugExposure.drug_exposure_id := drug_exposure_id !!! i;
               DrugExposure.person_id := person_id !!! i;
               DrugExposure.drug_concept_id := 0;
               DrugExposure.drug_source_value := (Medications.CODE <$> meds) !!! i;
               DrugExposure.drug_source_concept_id := 0;
               DrugExposure.drug_exposure_start_date := START !!! i;
               DrugExposure.drug_exposure_start_datetime := START !!! i;
               DrugExposure.drug_exposure_end_date := drug_exposure_end_date !!! i;
               DrugExposure.drug_exposure_end_datetime := drug_exposure_end_date !!! i;
               DrugExposure.drug_type_concept_id := 38000177;
               DrugExposure.stop_reason := (Medications.REASONCODE <$> meds) !!! i;
               DrugExposure.refills := None;
               DrugExposure.quantity := None;
               DrugExposure.days_supply := days_supply !!! i;
               DrugExposure.sig := None;
               DrugExposure.route_concept_id := 0;
               DrugExposure.lot_number := None;
               DrugExposure.provider_id := None;
               DrugExposure.visit_occurrence_id := None;
               DrugExposure.visit_detail_id := None;
               DrugExposure.route_source_value := None;
               DrugExposure.dose_unit_source_value := None |})
      <$> seq 0 (length drug_exposure_id) in
    bulk_insert "drug_exposure" (DrugExposureFrame omop_drug).

(** The required date columns hold dates: the inputs on which the parser
    does not raise. *)
Definition birth_dates_ok (dir : synthea_dir) : Prop :=
  Forall (λ p, is_Some (to_datetime_scalar (Patients.BIRTHDATE p))) (patients_csv dir).
Definition condition_starts_ok (dir : synthea_dir) : Prop :=
  Forall (λ c, is_Some (to_datetime_scalar (Conditions.START c))) (conditions_csv dir).
Definition medication_starts_ok (dir : synthea_dir) : Prop :=
  Forall (λ c, is_Some (to_datetime_scalar (Medications.START c))) (medications_csv dir).

(** [run_etl]: the four stages in order.  [now] is what [pd.Timestamp.now()]
    reads during the second stage. *)
Definition run_etl (now : Timestamp) (dir : synthea_dir) : M unit :=
  map_person dir;;
  map_observation_period now dir;;
  map_condition_occurrence dir;;
  map_drug_exposure dir.

End Mapper.

(** ** The entry point [run_etl.py]

    The directory [data/raw] as the entry point finds it: each of the three
    files may be missing, and other CSV files may lie beside them. *)

Record raw_dir := {
  patients_file : option (list Patients.row);
  conditions_file : option (list Conditions.row);
  medications_file : option (list Medications.row);
  other_csv : list string
}.

(** [list(synthea_dir.glob("*.csv"))] *)
Definition glob_csv (d : raw_dir) : list string :=
  match patients_file d with Some _ => ["patients.csv"] | None => [] end ++
  match conditions_file d with Some _ => ["conditions.csv"] | None => [] end ++
  match medications_file d with Some _ => ["medications.csv"] | None => [] end ++
  other_csv d.

(** The frames of the files that exist; a missing file is never read. *)
Definition files (d : raw_dir) : synthea_dir :=
  {| patients_csv := default [] (patients_file d);
     conditions_csv := default [] (conditions_file d);
     medications_csv := default [] (medications_file d) |}.

(** What [except Exception] can catch. *)
Inductive error :=
  | Exn (e : exn)
  | FileNotFoundError (name : string).

(** A stage whose first statement reads [file]: [pd.read_csv] raises when
    the file is missing, before the stage has done anything. *)
Definition reading {A} (name : string) (file : option A) (stage : M unit)
    (st : state) : option error * state :=
  match file with
  | None => (Some (FileNotFoundError name), st)
  | Some _ =>
      match stage st with
      | (Ok _, st') => (None, st')
      | (Raise e, st') => (Some (Exn e), st')
      end
  end.

Section EntryPoint.
Context `{Calendar}.

(** [mapper.run_etl()] on the directory. *)
Definition run_etl_in (now : Timestamp) (d : raw_dir) (st : state) : option error * state :=
  match reading "patients.csv" (patients_file d) (map_person (files d)) st with
  | (Some e, st) => (Some e, st)
  | (None, st) =>
  match reading "patients.csv" (patients_file d)
          (map_observation_period now (files d)) st with
  | (Some e, st) => (Some e, st)
  | (None, st) =>
  match reading "conditions.csv" (conditions_file d)
          (map_condition_occurrence (files d)) st with
  | (Some e, st) => (Some e, st)
  | (None, st) =>
      reading "medications.csv" (medications_file d) (map_drug_exposure (files d)) st
  end end end.

(** [main]: the completion signal, with the store as the run leaves it. *)
Definition main (now : Timestamp) (d : raw_dir) (store : list (string * DataFrame))
    : bool * list (string * DataFrame) :=
  if bool_decide (glob_csv d = []) then (false, store)
  else
    match run_etl_in now d (new_mapper store) with
    | (None, st) => (true, db st)
    | (Some _, st) => (false, db st)
    end.

End EntryPoint.

(** ** A concrete calendar

    The proleptic Gregorian calendar on texts of the form [YYYY-MM-DD], the
    format of Synthea's date columns.  It instantiates [Calendar] in the
    worked examples; the general results do not depend on it. *)

Module IsoCalendar.

Definition digit (a : ascii) : option Z :=
  let n := Z.of_nat (nat_of_ascii a) - 48 in
  if (0 <=? n) && (n <=? 9) then Some n else None.

Definition days_from_civil (y m d : Z) : Z :=
  let y := if m <=? 2 then y - 1 else y in
  let era := y `div` 400 in
  let yoe := y - era * 400 in
  let doy := (153 * (if 2 <? m then m - 3 else m + 9) + 2) `div` 5 + d - 1 in
  let doe := yoe * 365 + yoe `div` 4 - yoe `div` 100 + doy in
  era * 146097 + doe - 719468.

Definition civil_from_days (z : Z) : Z * Z * Z :=
  let z := z + 719468 in
  let era := z `div` 146097 in
  let doe := z - era * 146097 in
  let yoe := (doe - doe `div` 1460 + doe `div` 36524 - doe `div` 146096) `div` 365 in
  let doy := doe - (365 * yoe + yoe `div` 4 - yoe `div` 100) in
  let mp := (5 * doy + 2) `div` 153 in
  let d := doy - (153 * mp + 2) `div` 5 + 1 in
  let m := if mp <? 10 then mp + 3 else mp - 9 in
  let y := yoe + era * 400 in
  (if m <=? 2 then y + 1 else y, m, d).

Definition parse (s : string) : option Timestamp :=
  match s with
  | String y1 (String y2 (String y3 (String y4 (String "-" (String m1 (String m2
      (String "-" (String d1 (String d2 EmptyString))))))))) =>
      y1 ← digit y1; y2 ← digit y2; y3 ← digit y3; y4 ← digit y4;
      m1 ← digit m1; m2 ← digit m2; d1 ← digit d1; d2 ← digit d2;
      let y := 1000 * y1 + 100 * y2 + 10 * y3 + y4 in
      let m := 10 * m1 + m2 in
      let d := 10 * d1 + d2 in
      let '(y', m', d') := civil_from_days (days_from_civil y m d) in
      if (1 <=? m) && (m <=? 12) && (1 <=? d) && (d <=? 31)
         && (y' =? y) && (m' =? m) && (d' =? d)
      then Some (days_from_civil y m d * ns_per_day)
      else None
  | _ => None
  end.

#[global] Instance calendar : Calendar := {|
  to_datetime_scalar := parse;
  dt_year t := (civil_from_days (t `div` ns_per_day)).1.1;
  dt_month t := (civil_from_days (t `div` ns_per_day)).1.2;
  dt_day t := (civil_from_days (t `div` ns_per_day)).2
|}.

End IsoCalendar.

(** ** The de-identification script [prepare_data.py] *)

Module PrepareData.

(** Python's [random] module is library code: [seed a g] is the generator
    state after [random.seed(a)] in state [g], [randint a b g] is the draw
    [random.randint(a, b)] makes in state [g] with the state it leaves.
    Seeding with an integer installs a state computed from that integer
    alone ([seed_forgets]). *)
Class Random := {
  rng_state : Type;
  seed : Z → rng_state → rng_state;
  randint : Z → Z → rng_state → Z * rng_state;
  seed_forgets : ∀ a g g', seed a g = seed a g'
}.

(** The three tables read with [SELECT *]. *)
Record omop_tables := {
  person : list Person.row;
  conditions : list ConditionOccurrence.row;
  drugs : list DrugExposure.row
}.

(** The narrowed frames. *)
Record person_clean_row := {
  person_id : Z;
  gender_concept_id : Z;
  year_of_birth : Z;
  race_concept_id : Z
}.

Record conditions_clean_row := {
  condition_occurrence_id : Z;
  condition_person_id : option Z;
  condition_concept_id : Z;
  condition_start_date : Timestamp
}.

Record drugs_clean_row := {
  drug_exposure_id : Z;
  drug_person_id : option Z;
  drug_concept_id : Z;
  drug_exposure_start_date : Timestamp
}.

(** The dict [data] that the script pickles, with the shift it printed. *)
Record output := {
  date_shift : Z;
  person_clean : list person_clean_row;
  conditions_clean : list conditions_clean_row;
  drugs_clean : list drugs_clean_row
}.

Definition select_person (r : Person.row) : person_clean_row :=
  {| person_id := Person.person_id r;
     gender_concept_id := Person.gender_concept_id r;
     year_of_birth := Person.year_of_birth r;
     race_concept_id := Person.race_concept_id r |}.

Definition select_condition (r : ConditionOccurrence.row) : conditions_clean_row :=
  {| condition_occurrence_id := ConditionOccurrence.condition_occurrence_id r;
     condition_person_id := ConditionOccurrence.person_id r;
     condition_concept_id := ConditionOccurrence.condition_concept_id r;
     condition_start_date := ConditionOccurrence.condition_start_date r |}.

Definition select_drug (r : DrugExposure.row) : drugs_clean_row :=
  {| drug_exposure_id := DrugExposure.drug_exposure_id r;
     drug_person_id := DrugExposure.person_id r;
     drug_concept_id := DrugExposure.drug_concept_id r;
     drug_exposure_start_date := DrugExposure.drug_exposure_start_date r |}.

(** [df[col] = pd.to_datetime(df[col]) + pd.Timedelta(days=date_shift)] on a
    column the store returns as dates. *)
Definition shift_condition (shift : Z) (r : conditions_clean_row) : conditions_clean_row :=
  {| condition_occurrence_id := condition_occurrence_id r;
     condition_person_id := condition_person_id r;
     condition_concept_id := condition_concept_id r;
     condition_start_date := condition_start_date r + Timedelta_of_days shift |}.

Definition shift_drug (shift : Z) (r : drugs_clean_row) : drugs_clean_row :=
  {| drug_exposure_id := drug_exposure_id r;
     drug_person_id := drug_person_id r;
     drug_concept_id := drug_concept_id r;
     drug_exposure_start_date := drug_exposure_start_date r + Timedelta_of_days shift |}.

Section Script.
Context `{Random}.

(** One run of the script: [g0] is the state of the module-level generator
    when the script starts; the result pairs what the script writes with the
    generator state it leaves. *)
Definition prepare_data (g0 : rng_state) (tables : omop_tables) : output * rng_state :=
  (* Keep only needed columns *)
  let person_clean := select_person <$> person tables in
  let conditions_clean := select_condition <$> conditions tables in
  let drugs_clean := select_drug <$> drugs tables in
  (* random.seed(42) *)
  let g := seed 42 g0 in
  (* date_shift = random.randint(1, 30) *)
  let '(date_shift, g) := randint 1 30 g in
  let conditions_clean := shift_condition date_shift <$> conditions_clean in
  let drugs_clean := shift_drug date_shift <$> drugs_clean in
  ({| date_shift := date_shift;
      person_clean := person_clean;
      conditions_clean := conditions_clean;
      drugs_clean := drugs_clean |}, g).

End Script.

(** A stand-in generator for running the script on examples: a linear
    congruential one, seeded by the integer itself. *)
Module Lcg.

Definition next (g : Z) : Z := (1103515245 * g + 12345) `mod` 2147483648.

#[global] Instance random : Random := {|
  rng_state := Z;
  seed a _ := a;
  randint a b g := (a + next g `mod` (b - a + 1), next g);
  seed_forgets _ _ _ := eq_refl
|}.

End Lcg.

End PrepareData.

(** ** Worked inputs *)

Module Examples.

Definition patient (id birth : string) (ethnicity : option string) : Patients.row :=
  {| Patients.Id := id; Patients.GENDER := Some "F"; Patients.BIRTHDATE := birth;
     Patients.DEATHDATE := None; Patients.RACE := Some "white";
     Patients.ETHNICITY := ethnicity |}.

Definition condition (patient code start : string) (stop : option string) : Conditions.row :=
  {| Conditions.PATIENT := patient; Conditions.CODE := code;
     Conditions.START := start; Conditions.STOP := stop |}.

Definition medication (patient code start : string) (stop : option string) : Medications.row :=
  {| Medications.PATIENT := patient; Medications.CODE := code;
     Medications.START := start; Medications.STOP := stop;
     Medications.REASONCODE := None |}.

(** The scenario of the specification: one patient, one open condition. *)
Definition scenario : synthea_dir :=
  {| patients_csv := [patient "p1" "1990-01-01" (Some "nonhispanic")];
     conditions_csv := [condition "p1" "X1" "2020-01-01" None];
     medications_csv := [medication "p1" "D1" "2020-01-10" None] |}.

(** An ethnicity spelled with a hyphen. *)
Definition hyphenated : synthea_dir :=
  {| patients_csv := [patient "p1" "1990-01-01" (Some "non-hispanic")];
     conditions_csv := [];
     medications_csv := [] |}.

(** A birth date that is not a date, on the second row. *)
Definition malformed_birth : synthea_dir :=
  {| patients_csv := [patient "p1" "1990-01-01" None; patient "p2" "yesterday" None];
     conditions_csv := [];
     medications_csv := [] |}.

(** The same source identifier on two rows. *)
Definition duplicated : synthea_dir :=
  {| patients_csv := [patient "p1" "1990-01-01" None; patient "p1" "1985-05-05" None];
     conditions_csv := [condition "p1" "X1" "2020-01-01" None];
     medications_csv := [medication "p1" "D1" "2020-01-10" None] |}.

(** A medication whose stop date precedes its start date. *)
Definition early_stop : synthea_dir :=
  {| patients_csv := [patient "p1" "1990-01-01" None];
     conditions_csv := [];
     medications_csv := [medication "p1" "D1" "2020-01-10" (Some "2020-01-05")] |}.

(** Events of a patient the patients file does not list. *)
Definition unmapped : synthea_dir :=
  {| patients_csv := [patient "p1" "1990-01-01" None];
     conditions_csv := [condition "p9" "X1" "2020-01-01" None];
     medications_csv := [medication "p9" "D1" "2020-01-10" (Some "2020-01-12")] |}.

(** Stored tables for the de-identification script: what [scenario] loads. *)
Definition stored (now : Timestamp) : PrepareData.omop_tables :=
  match db (run_etl now scenario (new_mapper [])).2 with
  | [(_, PersonFrame person); _; (_, ConditionOccurrenceFrame conditions);
     (_, DrugExposureFrame drugs)] =>
      {| PrepareData.person := person; PrepareData.conditions := conditions;
         PrepareData.drugs := drugs |}
  | _ => {| PrepareData.person := []; PrepareData.conditions := [];
            PrepareData.drugs := [] |}
  end.

End Examples.

(** ** Further worked inputs *)

Module Inputs.

Definition p1 : Patients.row :=
  {| Patients.Id := "p1"; Patients.GENDER := Some "M"; Patients.BIRTHDATE := "1950-06-15";
     Patients.DEATHDATE := Some "2020-03-01"; Patients.RACE := Some "asian";
     Patients.ETHNICITY := Some "hispanic" |}.

Definition p2 : Patients.row :=
  {| Patients.Id := "p2"; Patients.GENDER := Some "female"; Patients.BIRTHDATE := "1990-01-01";
     Patients.DEATHDATE := Some "unknown"; Patients.RACE := Some "martian";
     Patients.ETHNICITY := None |}.

Definition c1 : Conditions.row :=
  {| Conditions.PATIENT := "p1"; Conditions.CODE := "C1";
     Conditions.START := "2019-01-01"; Conditions.STOP := Some "2019-02-01" |}.

Definition c2 : Conditions.row :=
  {| Conditions.PATIENT := "p2"; Conditions.CODE := "C2";
     Conditions.START := "2019-05-05"; Conditions.STOP := Some "soon" |}.

Definition c3 : Conditions.row :=
  {| Conditions.PATIENT := "p7"; Conditions.CODE := "C3";
     Conditions.START := "2019-05-06"; Conditions.STOP := None |}.

Definition m1 : Medications.row :=
  {| Medications.PATIENT := "p2"; Medications.CODE := "D1";
     Medications.START := "2020-01-10"; Medications.STOP := Some "2020-01-20";
     Medications.REASONCODE := Some "R55" |}.

(** Two patients, one dead and one with a death date that is not a date;
    three conditions, the last of a patient the file does not list; one
    medication. *)
Definition cohort : synthea_dir :=
  {| patients_csv := [p1; p2];
     conditions_csv := [c1; c2; c3];
     medications_csv := [m1] |}.


(** The cohort with a medication START that is not a date. *)
Definition bad_medication : synthea_dir :=
  {| patients_csv := [p1; p2];
     conditions_csv := [c1; c2; c3];
     medications_csv :=
       [{| Medications.PATIENT := "p2"; Medications.CODE := "D1";
           Medications.START := "n/a"; Medications.STOP := None;
           Medications.REASONCODE := None |}] |}.


(** The same directory without conditions.csv. *)
Definition conditions_missing : raw_dir :=
  {| patients_file := Some [p1; p2];
     conditions_file := None;
     medications_file := Some [m1];
     other_csv := [] |}.

(** Stored tables for the de-identification script: what the cohort loads. *)
Definition stored : PrepareData.omop_tables :=
  match db (run_etl 0 cohort (new_mapper [])).2 with
  | [(_, PersonFrame person); _; (_, ConditionOccurrenceFrame conditions);
     (_, DrugExposureFrame drugs)] =>
      {| PrepareData.person := person; PrepareData.conditions := conditions;
         PrepareData.drugs := drugs |}
  | _ => {| PrepareData.person := []; PrepareData.conditions := [];
            PrepareData.drugs := [] |}
  end.

End Inputs.

(** * Properties *)

(** ** Columns of a frame built on the index [0..n-1] *)

Lemma frame_column {A R} `{Inhabited A} (col : list A) (mk : nat → R) (proj : R → A) n :
  n = length col →
  (∀ i, proj (mk i) = col !!! i) →
  proj <$> (mk <$> seq 0 n) = col.
Proof.
  intros -> Hproj. apply list_eq. intros i.
  rewrite !list_lookup_fmap.
  destruct (decide (i < length col)%nat) as [Hi|Hi].
  - rewrite lookup_seq_lt by done. simpl. rewrite Hproj.
    destruct (lookup_lt_is_Some_2 col i Hi) as [x Hx].
    rewrite Hx. f_equal. by apply list_lookup_total_correct.
  - rewrite lookup_seq_ge by lia. simpl. symmetry. apply lookup_ge_None. lia.
Qed.

Lemma length_range_len {A} (df : list A) : length (range 1 (len df + 1)) = length df.
Proof. unfold range, len. rewrite length_seqZ. lia. Qed.

Lemma length_fillna {V} (v : V) s : length (fillna v s) = length s.
Proof. apply length_fmap. Qed.

Lemma length_Series_map {V} (d : gmap string V) s : length (Series_map d s) = length s.
Proof. apply length_fmap. Qed.

Lemma length_isna {V} (s : list (option V)) : length (isna s) = length s.
Proof. apply length_fmap. Qed.

Lemma length_fillna_series {V} (s : list (option V)) other :
  length s = length other → length (fillna_series s other) = length s.
Proof. intros Hlen. unfold fillna_series. rewrite length_zip_with. lia. Qed.

Lemma range_len {A} (df : list A) : range 1 (len df + 1) = seqZ 1 (len df).
Proof. unfold range. f_equal. lia. Qed.

(** ** The identity map after the loop of [map_person] *)

Section IdentityMap.
Implicit Types (m : gmap string Z) (pairs : list (string * Z)) (ids : list string).

Lemma store_mapping_cons k v pairs m :
  store_mapping ((k, v) :: pairs) m = store_mapping pairs (<[k := v]> m).
Proof. reflexivity. Qed.

(** A key the loop never visits keeps its entry. *)
Lemma store_mapping_notin pairs m k :
  k ∉ pairs.*1 → store_mapping pairs m !! k = m !! k.
Proof.
  revert m. induction pairs as [|[k' v'] pairs IH]; intros m Hk; [done|].
  rewrite fmap_cons, not_elem_of_cons in Hk. destruct Hk as [Hne Hk].
  rewrite store_mapping_cons, IH by done. by apply lookup_insert_ne.
Qed.

(** The last assignment to a key wins. *)
Lemma store_mapping_last pairs m j k v :
  pairs !! j = Some (k, v) →
  (∀ j' v', (j < j')%nat → pairs !! j' ≠ Some (k, v')) →
  store_mapping pairs m !! k = Some v.
Proof.
  revert m j. induction pairs as [|[k' v'] pairs IH]; intros m j Hj Hlast; [done|].
  rewrite store_mapping_cons. destruct j as [|j]; simpl in Hj.
  - injection Hj as -> ->. rewrite store_mapping_notin; [apply lookup_insert_eq|].
    intros Hin. apply list_elem_of_fmap in Hin as ([k1 v1] & -> & Hin).
    apply list_elem_of_lookup in Hin as [j' Hj'].
    apply (Hlast (S j') v1); [lia|done].
  - apply (IH _ j); [done|]. intros j' v1 Hlt. apply (Hlast (S j') v1). lia.
Qed.

(** Every entry is the old one or was assigned by the loop. *)
Lemma store_mapping_inv pairs m k v :
  store_mapping pairs m !! k = Some v →
  m !! k = Some v ∨ ∃ j, pairs !! j = Some (k, v).
Proof.
  revert m. induction pairs as [|[k' v'] pairs IH]; intros m Hm; [by left|].
  rewrite store_mapping_cons in Hm. apply IH in Hm as [Hm|[j Hj]].
  - rewrite lookup_insert in Hm. case_decide as Hk.
    + injection Hm as <-. subst k'. right. by exists 0%nat.
    + by left.
  - right. by exists (S j).
Qed.

(** The pairs the loop walks: source identifier of row [j] with [j + 1]. *)
Lemma lookup_zip_ids ids j k v :
  zip ids (range 1 (len ids + 1)) !! j = Some (k, v) ↔
  ids !! j = Some k ∧ v = Z.of_nat j + 1.
Proof.
  rewrite range_len, lookup_zip_Some, lookup_seqZ. unfold len. split.
  - intros (? & -> & ?). split; [done|lia].
  - intros [Hk ->]. split; [done|]. split; [lia|].
    apply lookup_lt_Some in Hk. lia.
Qed.

(** In a map built from scratch an identifier resolves to the surrogate id
    of the last row that carries it. *)
Lemma person_id_map_last ids m j k :
  ids !! j = Some k →
  (∀ j', (j < j')%nat → ids !! j' ≠ Some k) →
  store_mapping (zip ids (range 1 (len ids + 1))) m !! k = Some (Z.of_nat j + 1).
Proof.
  intros Hj Hlast. apply (store_mapping_last _ _ j).
  - by apply lookup_zip_ids.
  - intros j' v' Hlt Hj'. apply lookup_zip_ids in Hj' as [Hj' _]. by apply (Hlast j').
Qed.

(** ... and a surrogate id is reached only through the identifier of its row. *)
Lemma person_id_map_only ids j k :
  store_mapping (zip ids (range 1 (len ids + 1))) ∅ !! k = Some (Z.of_nat j + 1) →
  ids !! j = Some k.
Proof.
  intros Hk. apply store_mapping_inv in Hk as [Hk|[j' Hj']]; [by rewrite lookup_empty in Hk|].
  apply lookup_zip_ids in Hj' as [Hj' Heq].
  by replace j with j' by lia.
Qed.

(** An identifier no row carries stays unmapped. *)
Lemma person_id_map_unmapped ids k :
  k ∉ ids →
  store_mapping (zip ids (range 1 (len ids + 1))) ∅ !! k = None.
Proof.
  intros Hk. rewrite store_mapping_notin; [apply lookup_empty|].
  rewrite fst_zip; [done|]. rewrite length_range_len. lia.
Qed.

End IdentityMap.

(** ** What one run of each stage does *)

Section Stages.
Context `{Calendar}.

Lemma to_datetime_Some col ts st :
  mapM to_datetime_scalar col = Some ts → to_datetime col st = (Ok ts, st).
Proof. unfold to_datetime. by intros ->. Qed.

Lemma to_datetime_None col st :
  mapM to_datetime_scalar col = None → to_datetime col st = (Raise DateParseError, st).
Proof. unfold to_datetime. by intros ->. Qed.

Lemma length_to_datetime_coerce col : length (to_datetime_coerce col) = length col.
Proof. apply length_fmap. Qed.

Ltac frame_col :=
  apply frame_column;
  [ rewrite ?length_range_len, ?length_fillna, ?length_Series_map, ?length_fmap;
    try done
  | done ].

Lemma map_person_run dir st :
  let patients := patients_csv dir in
  let m' := store_mapping (zip (Patients.Id <$> patients) (range 1 (len patients + 1)))
              (person_id_map st) in
  match mapM to_datetime_scalar (Patients.BIRTHDATE <$> patients) with
  | Some BIRTHDATE =>
      ∃ omop_person,
        map_person dir st =
          (Ok (), {| person_id_map := m';
                     db := db st ++ [("person", PersonFrame omop_person)];
                     warnings := warnings st |}) ∧
        Person.person_id <$> omop_person = range 1 (len patients + 1) ∧
        Person.person_source_value <$> omop_person = Patients.Id <$> patients ∧
        Person.birth_datetime <$> omop_person = BIRTHDATE ∧
        Person.ethnicity_concept_id <$> omop_person =
          fillna 0 (Series_map ethnicity_concepts (Patients.ETHNICITY <$> patients))
  | None =>
      map_person dir st =
        (Raise DateParseError,
         {| person_id_map := m'; db := db st; warnings := warnings st |})
  end.
Proof.
  intros patients m'. unfold map_person, read_csv_to_dataframe.
  destruct (mapM _ _) as [BIRTHDATE|] eqn:Hdates.
  - eexists. split.
    { unfold mbind, M_bind, mret, M_ret, set_person_id_map, bulk_insert, modify. simpl.
      rewrite (to_datetime_Some _ BIRTHDATE) by done. simpl. reflexivity. }
    apply length_mapM in Hdates. rewrite length_fmap in Hdates.
    repeat split; frame_col.
  - unfold mbind, M_bind, mret, M_ret, set_person_id_map, modify. simpl.
    by rewrite to_datetime_None.
Qed.

Lemma map_observation_period_run now dir st :
  let patients := patients_csv dir in
  match mapM to_datetime_scalar (Patients.BIRTHDATE <$> patients) with
  | Some BIRTHDATE =>
      ∃ obs_period,
        map_observation_period now dir st =
          (Ok (), {| person_id_map := person_id_map st;
                     db := db st ++ [("observation_period", ObservationPeriodFrame obs_period)];
                     warnings := warnings st |}) ∧
        ObservationPeriod.observation_period_id <$> obs_period =
          range 1 (len patients + 1) ∧
        ObservationPeriod.person_id <$> obs_period =
          Series_map (person_id_map st) (Some <$> (Patients.Id <$> patients)) ∧
        ObservationPeriod.observation_period_start_date <$> obs_period = BIRTHDATE
  | None => map_observation_period now dir st = (Raise DateParseError, st)
  end.
Proof.
  intros patients. unfold map_observation_period, read_csv_to_dataframe.
  destruct (mapM _ _) as [BIRTHDATE|] eqn:Hdates.
  - eexists. split.
    { unfold mbind, M_bind, mret, M_ret, gets, bulk_insert, modify. simpl.
      rewrite (to_datetime_Some _ BIRTHDATE) by done. simpl. reflexivity. }
    apply length_mapM in Hdates. rewrite length_fmap in Hdates.
    repeat split; frame_col.
  - unfold mbind, M_bind, mret, M_ret, gets. simpl.
    by rewrite to_datetime_None.
Qed.

Lemma len_nil_iff {A} (df : list A) : len df = 0 ↔ df = [].
Proof. unfold len. destruct df; simpl; split; (done || lia). Qed.

Lemma map_condition_occurrence_empty dir st :
  conditions_csv dir = [] →
  map_condition_occurrence dir st =
    (Ok (), {| person_id_map := person_id_map st; db := db st;
               warnings := warnings st ++ ["  ⚠ No conditions found in CSV"] |}).
Proof. unfold map_condition_occurrence, read_csv_to_dataframe. by intros ->. Qed.

Lemma map_condition_occurrence_run dir st :
  let conditions := conditions_csv dir in
  conditions ≠ [] →
  match mapM to_datetime_scalar (Conditions.START <$> conditions) with
  | Some START =>
      ∃ omop_cond,
        map_condition_occurrence dir st =
          (Ok (), {| person_id_map := person_id_map st;
                     db := db st ++ [("condition_occurrence",
                                      ConditionOccurrenceFrame omop_cond)];
                     warnings := warnings st |}) ∧
        ConditionOccurrence.condition_occurrence_id <$> omop_cond =
          range 1 (len conditions + 1) ∧
        ConditionOccurrence.person_id <$> omop_cond =
          Series_map (person_id_map st) (Some <$> (Conditions.PATIENT <$> conditions)) ∧
        ConditionOccurrence.condition_source_value <$> omop_cond =
          Conditions.CODE <$> conditions
  | None => map_condition_occurrence dir st = (Raise DateParseError, st)
  end.
Proof.
  intros conditions Hne. unfold map_condition_occurrence, read_csv_to_dataframe.
  assert (bool_decide (len conditions = 0) = false) as Hlen.
  { apply bool_decide_eq_false. by rewrite len_nil_iff. }
  destruct (mapM _ _) as [START|] eqn:Hdates.
  - eexists. split.
    { unfold mbind, M_bind, mret, M_ret, gets, bulk_insert, modify. simpl.
      fold conditions. rewrite Hlen.
      rewrite (to_datetime_Some _ START) by done. simpl. reflexivity. }
    apply length_mapM in Hdates. rewrite length_fmap in Hdates.
    repeat split; frame_col.
  - unfold mbind, M_bind, mret, M_ret, gets. simpl. fold conditions. rewrite Hlen.
    by rewrite to_datetime_None.
Qed.

Lemma map_drug_exposure_empty dir st :
  medications_csv dir = [] →
  map_drug_exposure dir st =
    (Ok (), {| person_id_map := person_id_map st; db := db st;
               warnings := warnings st ++ ["  ⚠ No medications found in CSV"] |}).
Proof. unfold map_drug_exposure, read_csv_to_dataframe. by intros ->. Qed.

Lemma map_drug_exposure_run dir st :
  let meds := medications_csv dir in
  meds ≠ [] →
  match mapM to_datetime_scalar (Medications.START <$> meds) with
  | Some START =>
      let STOP := to_datetime_coerce (Medications.STOP <$> meds) in
      ∃ omop_drug,
        map_drug_exposure dir st =
          (Ok (), {| person_id_map := person_id_map st;
                     db := db st ++ [("drug_exposure", DrugExposureFrame omop_drug)];
                     warnings := warnings st |}) ∧
        DrugExposure.drug_exposure_id <$> omop_drug = range 1 (len meds + 1) ∧
        DrugExposure.person_id <$> omop_drug =
          Series_map (person_id_map st) (Some <$> (Medications.PATIENT <$> meds)) ∧
        DrugExposure.drug_exposure_start_date <$> omop_drug = START ∧
        DrugExposure.drug_exposure_end_date <$> omop_drug = fillna_series STOP START ∧
        DrugExposure.days_supply <$> omop_drug =
          dt_days <$> zip_with Z.sub (fillna_series STOP START) START
  | None => map_drug_exposure dir st = (Raise DateParseError, st)
  end.
Proof.
  intros meds Hne. unfold map_drug_exposure, read_csv_to_dataframe.
  assert (bool_decide (len meds = 0) = false) as Hlen.
  { apply bool_decide_eq_false. by rewrite len_nil_iff. }
  destruct (mapM _ _) as [START|] eqn:Hdates.
  - set (STOP := to_datetime_coerce (Medications.STOP <$> meds)). eexists. split.
    { unfold mbind, M_bind, mret, M_ret, gets, bulk_insert, modify. simpl.
      fold meds. rewrite Hlen.
      rewrite (to_datetime_Some _ START) by done. simpl. reflexivity. }
    apply length_mapM in Hdates. rewrite length_fmap in Hdates.
    assert (length STOP = length START) as HSTOP.
    { unfold STOP. by rewrite length_to_datetime_coerce, length_fmap. }
    assert (length (fillna_series STOP START) = length START) as Hend.
    { rewrite length_fillna_series; done. }
    repeat split; frame_col.
    + unfold Timestamp in *. lia.
    + rewrite length_zip_with. unfold Timestamp in *. lia.
  - unfold mbind, M_bind, mret, M_ret, gets. simpl. fold meds. rewrite Hlen.
    by rewrite to_datetime_None.
Qed.

End Stages.

(** ** The stated properties *)

(** Rows of a frame, read off its columns. *)
Lemma frame_row {R A B} (proj : R → A) (f : B → A) (rows : list R) (src : list B) i x :
  proj <$> rows = f <$> src →
  src !! i = Some x →
  ∃ r, rows !! i = Some r ∧ proj r = f x.
Proof.
  intros Hcol Hx.
  assert ((proj <$> rows) !! i = Some (f x)) as Hi.
  { by rewrite Hcol, list_lookup_fmap, Hx. }
  apply list_lookup_fmap_Some in Hi as (r & ? & ?). eauto.
Qed.

Lemma column_lookup {R A} (proj : R → A) (rows : list R) col i r :
  proj <$> rows = col → rows !! i = Some r → col !! i = Some (proj r).
Proof. intros <- Hr. by rewrite list_lookup_fmap, Hr. Qed.

Lemma lookup_range_len {A} (df : list A) i x :
  range 1 (len df + 1) !! i = Some x → x = Z.of_nat i + 1.
Proof. rewrite range_len, lookup_seqZ. lia. Qed.

Lemma ethnicity_concepts_lookup (e : string) :
  ethnicity_concepts !! e =
    if decide (e = "hispanic") then Some 38003563
    else if decide (e = "nonhispanic") then Some 38003564
    else None.
Proof.
  unfold ethnicity_concepts. simpl.
  rewrite lookup_insert. case_decide; [by rewrite decide_True|].
  rewrite decide_False by done.
  rewrite lookup_insert. case_decide; [by rewrite decide_True|].
  rewrite decide_False by done. apply lookup_empty.
Qed.

Section Claims.
Context `{Calendar}.

Lemma birth_dates_ok_mapM dir :
  birth_dates_ok dir →
  ∃ BIRTHDATE, mapM to_datetime_scalar (Patients.BIRTHDATE <$> patients_csv dir) = Some BIRTHDATE.
Proof.
  intros Hok. apply (mapM_is_Some_2 to_datetime_scalar).
  by apply Forall_fmap.
Qed.

Lemma condition_starts_ok_mapM dir :
  condition_starts_ok dir →
  ∃ START, mapM to_datetime_scalar (Conditions.START <$> conditions_csv dir) = Some START.
Proof.
  intros Hok. apply (mapM_is_Some_2 to_datetime_scalar).
  by apply Forall_fmap.
Qed.

Lemma medication_starts_ok_mapM dir :
  medication_starts_ok dir →
  ∃ START, mapM to_datetime_scalar (Medications.START <$> medications_csv dir) = Some START.
Proof.
  intros Hok. apply (mapM_is_Some_2 to_datetime_scalar).
  by apply Forall_fmap.
Qed.

Lemma mapM_lookup {A B} (f : A → option B) col ts k x :
  mapM f col = Some ts → col !! k = Some x →
  ∃ t, f x = Some t ∧ ts !! k = Some t.
Proof.
  intros Hts Hx. apply mapM_Some_1 in Hts.
  destruct (Forall2_lookup_l _ _ _ k x Hts Hx) as (t & ? & ?). eauto.
Qed.

Lemma Series_map_ids_lookup {R} (m : gmap string Z) (key : R → string) (src : list R) k x r :
  src !! k = Some x →
  Series_map m (Some <$> (key <$> src)) !! k = Some r →
  r = m !! key x.
Proof.
  intros Hx. unfold Series_map. rewrite !list_lookup_fmap, Hx. simpl. congruence.
Qed.

(** The row [map_condition_occurrence] writes for the source row at position [k]. *)
Lemma map_condition_occurrence_row dir st k c :
  condition_starts_ok dir →
  conditions_csv dir !! k = Some c →
  ∃ omop_cond r,
    map_condition_occurrence dir st =
      (Ok (), {| person_id_map := person_id_map st;
                 db := db st ++ [("condition_occurrence", ConditionOccurrenceFrame omop_cond)];
                 warnings := warnings st |}) ∧
    length omop_cond = length (conditions_csv dir) ∧
    omop_cond !! k = Some r ∧
    ConditionOccurrence.condition_occurrence_id r = Z.of_nat k + 1 ∧
    ConditionOccurrence.person_id r = person_id_map st !! Conditions.PATIENT c ∧
    ConditionOccurrence.condition_source_value r = Conditions.CODE c.
Proof.
  intros Hok Hc. destruct (condition_starts_ok_mapM dir Hok) as [START Hdates].
  assert (conditions_csv dir ≠ []) as Hne by (by intros Hnil; rewrite Hnil in Hc).
  pose proof (map_condition_occurrence_run dir st Hne) as Hrun.
  cbv zeta in Hrun. rewrite Hdates in Hrun.
  destruct Hrun as (omop_cond & Hrun & Hids & Hpid & Hsrc).
  destruct (frame_row _ _ _ _ k c Hsrc Hc) as (r & Hr & Hcode).
  exists omop_cond, r. split; [exact Hrun|]. split; [|split; [done|]].
  { rewrite <- (length_fmap ConditionOccurrence.condition_occurrence_id), Hids.
    apply length_range_len. }
  split; [|split; [|done]].
  - apply (lookup_range_len (conditions_csv dir) k).
    by apply (column_lookup ConditionOccurrence.condition_occurrence_id omop_cond).
  - apply (Series_map_ids_lookup _ _ _ k c _ Hc).
    by apply (column_lookup ConditionOccurrence.person_id omop_cond).
Qed.

(** The row [map_drug_exposure] writes for the source row at position [k]. *)
Lemma map_drug_exposure_row dir st k d :
  medication_starts_ok dir →
  medications_csv dir !! k = Some d →
  ∃ omop_drug r s,
    map_drug_exposure dir st =
      (Ok (), {| person_id_map := person_id_map st;
                 db := db st ++ [("drug_exposure", DrugExposureFrame omop_drug)];
                 warnings := warnings st |}) ∧
    length omop_drug = length (medications_csv dir) ∧
    omop_drug !! k = Some r ∧
    to_datetime_scalar (Medications.START d) = Some s ∧
    DrugExposure.drug_exposure_id r = Z.of_nat k + 1 ∧
    DrugExposure.person_id r = person_id_map st !! Medications.PATIENT d ∧
    DrugExposure.drug_exposure_start_date r = s ∧
    DrugExposure.drug_exposure_end_date r =
      default s (Medications.STOP d ≫= to_datetime_scalar) ∧
    DrugExposure.days_supply r =
      dt_days (DrugExposure.drug_exposure_end_date r - s).
Proof.
  intros Hok Hd. destruct (medication_starts_ok_mapM dir Hok) as [START Hdates].
  assert (medications_csv dir ≠ []) as Hne by (by intros Hnil; rewrite Hnil in Hd).
  pose proof (map_drug_exposure_run dir st Hne) as Hrun.
  cbv zeta in Hrun. rewrite Hdates in Hrun.
  destruct Hrun as (omop_drug & Hrun & Hids & Hpid & Hstart & Hend & Hdays).
  assert ((Medications.START <$> medications_csv dir) !! k = Some (Medications.START d))
    as HSTART by (by rewrite list_lookup_fmap, Hd).
  destruct (mapM_lookup _ _ _ _ _ Hdates HSTART) as (s & Hs & Hsk).
  assert (is_Some (omop_drug !! k)) as [r Hr].
  { apply lookup_lt_is_Some. rewrite <- (length_fmap DrugExposure.drug_exposure_start_date), Hstart.
    by apply lookup_lt_Some in Hsk. }
  assert (fillna_series (to_datetime_coerce (Medications.STOP <$> medications_csv dir)) START
            !! k = Some (default s (Medications.STOP d ≫= to_datetime_scalar))) as Hendk.
  { unfold fillna_series, to_datetime_coerce.
    by rewrite lookup_zip_with, list_lookup_fmap, list_lookup_fmap, Hd, Hsk. }
  pose proof (column_lookup _ _ _ k r Hstart Hr) as Hc1.
  pose proof (column_lookup _ _ _ k r Hend Hr) as Hc2.
  pose proof (column_lookup _ _ _ k r Hdays Hr) as Hc3.
  unfold Timestamp in *.
  rewrite Hsk in Hc1. rewrite Hendk in Hc2.
  rewrite list_lookup_fmap, lookup_zip_with, Hendk, Hsk in Hc3. simpl in Hc3.
  injection Hc1 as Hc1. injection Hc2 as Hc2. injection Hc3 as Hc3.
  exists omop_drug, r, s. split; [exact Hrun|]. split; [|split; [done|]].
  { rewrite <- (length_fmap DrugExposure.drug_exposure_id), Hids.
    apply length_range_len. }
  split; [done|]. split; [|split; [|split; [done|split; [done|]]]].
  - apply (lookup_range_len (medications_csv dir) k).
    by apply (column_lookup DrugExposure.drug_exposure_id omop_drug).
  - apply (Series_map_ids_lookup _ _ _ k d _ Hd).
    by apply (column_lookup DrugExposure.person_id omop_drug).
  - by rewrite <- Hc3, <- Hc2.
Qed.

(** C1. For a patients file of N rows whose birth dates are dates,
    [map_person] returns normally and appends to the [person] table a frame
    of exactly N rows; its [person_id] column is 1, 2, ..., N, and the row at
    position [i] (counting from 0) comes from the source row at position [i]
    and carries the id [i + 1]. *)
Theorem person_surrogate_ids_dense dir st :
  birth_dates_ok dir →
  ∃ omop_person st',
    map_person dir st = (Ok (), st') ∧
    db st' = (db st ++ [("person", PersonFrame omop_person)])%list ∧
    length omop_person = length (patients_csv dir) ∧
    Person.person_id <$> omop_person = seqZ 1 (len (patients_csv dir)) ∧
    ∀ i p, patients_csv dir !! i = Some p →
      ∃ r, omop_person !! i = Some r ∧
           Person.person_id r = Z.of_nat i + 1 ∧
           Person.person_source_value r = Patients.Id p.
Proof.
  intros Hok. destruct (birth_dates_ok_mapM dir Hok) as [BIRTHDATE Hdates].
  pose proof (map_person_run dir st) as Hrun. cbv zeta in Hrun. rewrite Hdates in Hrun.
  destruct Hrun as (omop_person & Hrun & Hids & Hsrc & _).
  eexists omop_person, _. split; [exact Hrun|]. split; [done|].
  split; [|split].
  - rewrite <- (length_fmap Person.person_id), Hids. apply length_range_len.
  - by rewrite Hids, range_len.
  - intros i p Hp. destruct (frame_row _ _ _ _ i p Hsrc Hp) as (r & Hr & Hid).
    exists r. split; [done|]. split; [|done].
    apply (lookup_range_len (patients_csv dir) i).
    by apply (column_lookup Person.person_id omop_person).
Qed.

(** C5 (as amended). In the frame [map_person] appends, the ethnicity
    concept of a row is 38003563 when the source value is "hispanic",
    38003564 when it is "nonhispanic" (no hyphen), and 0 for every other
    value and for an empty cell. *)
Theorem ethnicity_concept_lookup dir st :
  birth_dates_ok dir →
  ∃ omop_person st',
    map_person dir st = (Ok (), st') ∧
    db st' = (db st ++ [("person", PersonFrame omop_person)])%list ∧
    ∀ i p, patients_csv dir !! i = Some p →
      ∃ r, omop_person !! i = Some r ∧
           Person.ethnicity_concept_id r =
             match Patients.ETHNICITY p with
             | Some e =>
                 if decide (e = "hispanic") then 38003563
                 else if decide (e = "nonhispanic") then 38003564
                 else 0
             | None => 0
             end.
Proof.
  intros Hok. destruct (birth_dates_ok_mapM dir Hok) as [BIRTHDATE Hdates].
  pose proof (map_person_run dir st) as Hrun. cbv zeta in Hrun. rewrite Hdates in Hrun.
  destruct Hrun as (omop_person & Hrun & _ & _ & _ & Heth).
  eexists omop_person, _. split; [exact Hrun|]. split; [done|].
  intros i p Hp.
  unfold fillna, Series_map in Heth. rewrite <- !list_fmap_compose in Heth.
  destruct (frame_row _ _ _ _ i p Heth Hp) as (r & Hr & Hval).
  exists r. split; [done|]. rewrite Hval. simpl.
  destruct (Patients.ETHNICITY p) as [e|]; [|done]. simpl.
  rewrite ethnicity_concepts_lookup. by repeat case_decide.
Qed.

(** C7. When some row of the patients file has a birth date that is not a
    date, [map_person] raises and the store is left as it was: no row of the
    person frame is inserted.  The exception aborts [run_etl] as well, again
    with nothing written. *)
Theorem malformed_birth_date_aborts now dir st :
  Exists (λ p, to_datetime_scalar (Patients.BIRTHDATE p) = None) (patients_csv dir) →
  (∃ st', map_person dir st = (Raise DateParseError, st') ∧ db st' = db st) ∧
  (∃ st', run_etl now dir st = (Raise DateParseError, st') ∧ db st' = db st).
Proof.
  intros Hbad.
  assert (mapM to_datetime_scalar (Patients.BIRTHDATE <$> patients_csv dir) = None) as Hdates.
  { apply mapM_None_2. by apply Exists_fmap. }
  pose proof (map_person_run dir st) as Hrun. cbv zeta in Hrun. rewrite Hdates in Hrun.
  split.
  - eexists. split; [exact Hrun|done].
  - exists {| person_id_map := person_id_map (map_person dir st).2;
               db := db st; warnings := warnings st |}.
    split; [|done].
    unfold run_etl. unfold mbind at 1, M_bind at 1. by rewrite Hrun.
Qed.

Lemma len_fmap {A B} (f : A → B) (df : list A) : len (f <$> df) = len df.
Proof. unfold len. by rewrite length_fmap. Qed.

(** The identity map after [map_person], whether or not the stage raised. *)
Lemma map_person_identity_map dir st :
  let ids := Patients.Id <$> patients_csv dir in
  person_id_map (map_person dir st).2 =
    store_mapping (zip ids (range 1 (len ids + 1))) (person_id_map st).
Proof.
  intros ids. unfold ids. rewrite len_fmap.
  pose proof (map_person_run dir st) as Hrun. cbv zeta in Hrun.
  destruct (mapM _ _).
  - destruct Hrun as (? & -> & _). done.
  - by rewrite Hrun.
Qed.

(** C2 (as amended). After [map_person] on a fresh mapper, the identity map
    resolves the source identifier of a row to the surrogate id of that row
    (position [i], id [i + 1]) provided no later row carries the same
    identifier, so in particular when the identifiers are distinct; and in
    every case no other identifier resolves to that surrogate id. *)
Theorem identity_map_complete dir store i p :
  patients_csv dir !! i = Some p →
  (∀ j q, (i < j)%nat → patients_csv dir !! j = Some q → Patients.Id q ≠ Patients.Id p) →
  let m := person_id_map (map_person dir (new_mapper store)).2 in
  m !! Patients.Id p = Some (Z.of_nat i + 1) ∧
  ∀ k, m !! k = Some (Z.of_nat i + 1) → k = Patients.Id p.
Proof.
  intros Hp Hlast m. unfold m. rewrite map_person_identity_map. simpl.
  assert ((Patients.Id <$> patients_csv dir) !! i = Some (Patients.Id p)) as Hi
    by (by rewrite list_lookup_fmap, Hp).
  split.
  - apply person_id_map_last; [done|].
    intros j Hlt Hj. apply list_lookup_fmap_Some in Hj as (q & Hq & Heq).
    by apply (Hlast j q).
  - intros k Hk. apply person_id_map_only in Hk. congruence.
Qed.

(** C3. On a conditions (medications) file whose start dates are dates, the
    stage returns normally and writes one row per source row; the row written
    for a source row whose patient identifier is not a key of the identity
    map sits at the same position and has an empty person reference. *)
Theorem unmapped_reference_tolerated dir st :
  condition_starts_ok dir →
  medication_starts_ok dir →
  (∀ k c, conditions_csv dir !! k = Some c →
          person_id_map st !! Conditions.PATIENT c = None →
     ∃ omop_cond st' r,
       map_condition_occurrence dir st = (Ok (), st') ∧
       db st' = (db st ++ [("condition_occurrence", ConditionOccurrenceFrame omop_cond)])%list ∧
       length omop_cond = length (conditions_csv dir) ∧
       omop_cond !! k = Some r ∧
       ConditionOccurrence.condition_source_value r = Conditions.CODE c ∧
       ConditionOccurrence.person_id r = None) ∧
  (∀ k d, medications_csv dir !! k = Some d →
          person_id_map st !! Medications.PATIENT d = None →
     ∃ omop_drug st' r,
       map_drug_exposure dir st = (Ok (), st') ∧
       db st' = (db st ++ [("drug_exposure", DrugExposureFrame omop_drug)])%list ∧
       length omop_drug = length (medications_csv dir) ∧
       omop_drug !! k = Some r ∧
       DrugExposure.drug_exposure_id r = Z.of_nat k + 1 ∧
       DrugExposure.person_id r = None).
Proof.
  intros Hcond Hmeds. split.
  - intros k c Hc Hnone.
    destruct (map_condition_occurrence_row dir st k c Hcond Hc)
      as (omop_cond & r & Hrun & Hlen & Hr & _ & Hpid & Hcode).
    eexists omop_cond, _, r. split; [exact Hrun|]. by rewrite Hpid.
  - intros k d Hd Hnone.
    destruct (map_drug_exposure_row dir st k d Hmeds Hd)
      as (omop_drug & r & s & Hrun & Hlen & Hr & _ & Hid & Hpid & _).
    eexists omop_drug, _, r. split; [exact Hrun|]. by rewrite Hpid.
Qed.

(** C4 (as amended). For a medication row whose stop date is absent, is not
    a date, or is not earlier than its start date, the days_supply written is
    non-negative. *)
Theorem days_supply_nonneg dir st k d :
  medication_starts_ok dir →
  medications_csv dir !! k = Some d →
  (∀ s e, to_datetime_scalar (Medications.START d) = Some s →
          Medications.STOP d ≫= to_datetime_scalar = Some e → s ≤ e) →
  ∃ omop_drug st' r,
    map_drug_exposure dir st = (Ok (), st') ∧
    db st' = (db st ++ [("drug_exposure", DrugExposureFrame omop_drug)])%list ∧
    omop_drug !! k = Some r ∧
    0 ≤ DrugExposure.days_supply r.
Proof.
  intros Hmeds Hd Horder.
  destruct (map_drug_exposure_row dir st k d Hmeds Hd)
    as (omop_drug & r & s & Hrun & _ & Hr & Hs & _ & _ & _ & Hend & Hdays).
  eexists omop_drug, _, r. split; [exact Hrun|]. split; [done|]. split; [done|].
  rewrite Hdays, Hend. unfold dt_days, ns_per_day.
  apply Z.div_pos; [|lia].
  destruct (Medications.STOP d ≫= to_datetime_scalar) as [e|] eqn:He; simpl.
  - specialize (Horder s e Hs eq_refl). lia.
  - lia.
Qed.

(** C6. For a medication row with no stop date, the end date written equals
    the start date and the days_supply written is 0. *)
Theorem missing_stop_defaults_to_start dir st k d :
  medication_starts_ok dir →
  medications_csv dir !! k = Some d →
  Medications.STOP d = None →
  ∃ omop_drug st' r,
    map_drug_exposure dir st = (Ok (), st') ∧
    db st' = (db st ++ [("drug_exposure", DrugExposureFrame omop_drug)])%list ∧
    omop_drug !! k = Some r ∧
    to_datetime_scalar (Medications.START d) = Some (DrugExposure.drug_exposure_start_date r) ∧
    DrugExposure.drug_exposure_end_date r = DrugExposure.drug_exposure_start_date r ∧
    DrugExposure.days_supply r = 0.
Proof.
  intros Hmeds Hd Hstop.
  destruct (map_drug_exposure_row dir st k d Hmeds Hd)
    as (omop_drug & r & s & Hrun & _ & Hr & Hs & _ & _ & Hstart & Hend & Hdays).
  rewrite Hstop in Hend. simpl in Hend.
  eexists omop_drug, _, r. split; [exact Hrun|]. split; [done|]. split; [done|].
  split; [by rewrite Hstart|]. split; [by rewrite Hstart|].
  rewrite Hdays, Hend. by replace (s - s) with 0 by lia.
Qed.

Lemma bind_Ok {A B} (m : M A) (f : A → M B) st a st' :
  m st = (Ok a, st') → (m ≫= f) st = f a st'.
Proof. unfold mbind, M_bind. by intros ->. Qed.

(** Person and observation-period mapping, one after the other. *)
Lemma person_then_observation_period now dir st :
  birth_dates_ok dir →
  ∃ omop_person obs_period,
    map_person dir st =
      (Ok (), {| person_id_map := person_id_map (map_person dir st).2;
                 db := db st ++ [("person", PersonFrame omop_person)];
                 warnings := warnings st |}) ∧
    map_observation_period now dir (map_person dir st).2 =
      (Ok (), {| person_id_map := person_id_map (map_person dir st).2;
                 db := db st ++ [("person", PersonFrame omop_person);
                                 ("observation_period", ObservationPeriodFrame obs_period)];
                 warnings := warnings st |}) ∧
    length omop_person = length (patients_csv dir) ∧
    length obs_period = length (patients_csv dir).
Proof.
  intros Hok. destruct (birth_dates_ok_mapM dir Hok) as [BIRTHDATE Hdates].
  pose proof (map_person_run dir st) as Hrun. cbv zeta in Hrun. rewrite Hdates in Hrun.
  destruct Hrun as (omop_person & Hrun & Hids & _).
  pose proof (map_observation_period_run now dir (map_person dir st).2) as Hobs.
  cbv zeta in Hobs. rewrite Hdates in Hobs.
  destruct Hobs as (obs_period & Hobs & Hoids & _).
  exists omop_person, obs_period. rewrite Hobs, Hrun. simpl.
  split; [done|]. split; [by rewrite <- app_assoc|]. split.
  - rewrite <- (length_fmap Person.person_id), Hids. apply length_range_len.
  - rewrite <- (length_fmap ObservationPeriod.observation_period_id), Hoids.
    apply length_range_len.
Qed.

(** C9. A conditions (medications) file with no rows makes its stage log a
    warning and return normally with the store untouched.  Person and
    observation-period mapping do not look at those files: on a patients file
    whose birth dates are dates they succeed and write one row per patient,
    and with both event files empty the whole run succeeds having written
    the person and observation-period frames only. *)
Theorem empty_tables_skipped now dir st :
  (conditions_csv dir = [] →
     ∃ st', map_condition_occurrence dir st = (Ok (), st') ∧
            db st' = db st ∧
            warnings st' = (warnings st ++ ["  ⚠ No conditions found in CSV"])%list) ∧
  (medications_csv dir = [] →
     ∃ st', map_drug_exposure dir st = (Ok (), st') ∧
            db st' = db st ∧
            warnings st' = (warnings st ++ ["  ⚠ No medications found in CSV"])%list) ∧
  (birth_dates_ok dir →
     ∃ omop_person obs_period st1 st2,
       map_person dir st = (Ok (), st1) ∧
       map_observation_period now dir st1 = (Ok (), st2) ∧
       db st2 = (db st ++ [("person", PersonFrame omop_person);
                           ("observation_period", ObservationPeriodFrame obs_period)])%list ∧
       length omop_person = length (patients_csv dir) ∧
       length obs_period = length (patients_csv dir)) ∧
  (birth_dates_ok dir → conditions_csv dir = [] → medications_csv dir = [] →
     ∃ omop_person obs_period st',
       run_etl now dir st = (Ok (), st') ∧
       db st' = (db st ++ [("person", PersonFrame omop_person);
                           ("observation_period", ObservationPeriodFrame obs_period)])%list ∧
       length omop_person = length (patients_csv dir) ∧
       length obs_period = length (patients_csv dir)).
Proof.
  split; [|split; [|split]].
  - intros Hnil. eexists. split; [by apply map_condition_occurrence_empty|done].
  - intros Hnil. eexists. split; [by apply map_drug_exposure_empty|done].
  - intros Hok.
    destruct (person_then_observation_period now dir st Hok)
      as (omop_person & obs_period & Hp & Ho & Hlp & Hlo).
    eexists omop_person, obs_period, _, _. split; [exact Hp|].
    rewrite Hp in Ho. simpl in Ho. split; [exact Ho|]. done.
  - intros Hok Hc Hm.
    destruct (person_then_observation_period now dir st Hok)
      as (omop_person & obs_period & Hp & Ho & Hlp & Hlo).
    rewrite Hp in Ho. simpl in Ho.
    eexists omop_person, obs_period, _. split.
    { unfold run_etl. rewrite (bind_Ok _ _ _ _ _ Hp), (bind_Ok _ _ _ _ _ Ho).
      rewrite (bind_Ok _ _ _ _ _ (map_condition_occurrence_empty dir _ Hc)).
      by apply map_drug_exposure_empty. }
    done.
Qed.

(** C10. When two rows of the patients file carry the same source
    identifier, [map_person] (all dates being dates) still writes one person
    row per source row with the distinct ids 1..N, while the identity map
    holds for that identifier the surrogate id of its last row, not that of
    the earlier one.  In any later state with that identity map, every
    condition and every medication row that references the identifier is
    written with the surrogate id of that last row. *)
Theorem duplicate_identifier_resolves_to_last dir store i j p q :
  (i < j)%nat →
  patients_csv dir !! i = Some p →
  patients_csv dir !! j = Some q →
  Patients.Id p = Patients.Id q →
  (∀ j' q', (j < j')%nat → patients_csv dir !! j' = Some q' →
            Patients.Id q' ≠ Patients.Id q) →
  birth_dates_ok dir → condition_starts_ok dir → medication_starts_ok dir →
  ∃ omop_person st1,
    map_person dir (new_mapper store) = (Ok (), st1) ∧
    db st1 = (store ++ [("person", PersonFrame omop_person)])%list ∧
    Person.person_id <$> omop_person = seqZ 1 (len (patients_csv dir)) ∧
    NoDup (Person.person_id <$> omop_person) ∧
    person_id_map st1 !! Patients.Id p = Some (Z.of_nat j + 1) ∧
    person_id_map st1 !! Patients.Id p ≠ Some (Z.of_nat i + 1) ∧
    ∀ st2, person_id_map st2 = person_id_map st1 →
      (∀ k c, conditions_csv dir !! k = Some c →
              Conditions.PATIENT c = Patients.Id p →
         ∃ omop_cond st3 r,
           map_condition_occurrence dir st2 = (Ok (), st3) ∧
           db st3 = (db st2 ++ [("condition_occurrence",
                                 ConditionOccurrenceFrame omop_cond)])%list ∧
           omop_cond !! k = Some r ∧
           ConditionOccurrence.person_id r = Some (Z.of_nat j + 1)) ∧
      (∀ k d, medications_csv dir !! k = Some d →
              Medications.PATIENT d = Patients.Id p →
         ∃ omop_drug st3 r,
           map_drug_exposure dir st2 = (Ok (), st3) ∧
           db st3 = (db st2 ++ [("drug_exposure", DrugExposureFrame omop_drug)])%list ∧
           omop_drug !! k = Some r ∧
           DrugExposure.person_id r = Some (Z.of_nat j + 1)).
Proof.
  intros Hij Hp Hq Hsame Hlast Hbirth Hcond Hmeds.
  destruct (birth_dates_ok_mapM dir Hbirth) as [BIRTHDATE Hdates].
  pose proof (map_person_run dir (new_mapper store)) as Hrun.
  cbv zeta in Hrun. rewrite Hdates in Hrun.
  destruct Hrun as (omop_person & Hrun & Hids & _).
  pose proof (map_person_identity_map dir (new_mapper store)) as Hmap.
  cbv zeta in Hmap. rewrite Hrun in Hmap. simpl in Hmap.
  assert (store_mapping
            (zip (Patients.Id <$> patients_csv dir)
                 (range 1 (len (Patients.Id <$> patients_csv dir) + 1))) ∅
            !! Patients.Id p = Some (Z.of_nat j + 1)) as Hres.
  { rewrite Hsame. apply person_id_map_last.
    - by rewrite list_lookup_fmap, Hq.
    - intros j' Hlt Hj'. apply list_lookup_fmap_Some in Hj' as (q' & Hq' & Heq).
      by apply (Hlast j' q'). }
  eexists omop_person, _. split; [exact Hrun|]. simpl. split; [done|].
  split; [by rewrite Hids, range_len|].
  split; [rewrite Hids, range_len; apply NoDup_seqZ|].
  rewrite Hmap, Hres. split; [done|]. split; [intros [=]; lia|].
  intros st2 Hst2. split.
  - intros k c Hc Hpat.
    destruct (map_condition_occurrence_row dir st2 k c Hcond Hc)
      as (omop_cond & r & Hrun2 & _ & Hr & _ & Hpid & _).
    eexists omop_cond, _, r. split; [exact Hrun2|]. split; [done|]. split; [done|].
    by rewrite Hpid, Hst2, Hpat, Hres.
  - intros k d Hd Hpat.
    destruct (map_drug_exposure_row dir st2 k d Hmeds Hd)
      as (omop_drug & r & s & Hrun2 & _ & Hr & _ & _ & Hpid & _).
    eexists omop_drug, _, r. split; [exact Hrun2|]. split; [done|]. split; [done|].
    by rewrite Hpid, Hst2, Hpat, Hres.
Qed.

End Claims.

(** C8. Two runs of the script on the same tables, started with the
    module-level generator in two arbitrary states, draw the same shift and
    produce the same shifted condition and drug start dates: all they write
    is equal.  The shift is the first draw after seeding with 42, and every
    date moves by that many days. *)
Theorem date_shift_deterministic `{PrepareData.Random}
    (g1 g2 : PrepareData.rng_state) (tables : PrepareData.omop_tables) :
  let run1 := (PrepareData.prepare_data g1 tables).1 in
  let run2 := (PrepareData.prepare_data g2 tables).1 in
  PrepareData.date_shift run1 = PrepareData.date_shift run2 ∧
  PrepareData.condition_start_date <$> PrepareData.conditions_clean run1 =
    PrepareData.condition_start_date <$> PrepareData.conditions_clean run2 ∧
  PrepareData.drug_exposure_start_date <$> PrepareData.drugs_clean run1 =
    PrepareData.drug_exposure_start_date <$> PrepareData.drugs_clean run2 ∧
  run1 = run2 ∧
  PrepareData.date_shift run1 = (PrepareData.randint 1 30 (PrepareData.seed 42 g1)).1 ∧
  PrepareData.condition_start_date <$> PrepareData.conditions_clean run1 =
    (λ r, ConditionOccurrence.condition_start_date r
          + Timedelta_of_days (PrepareData.date_shift run1)) <$> PrepareData.conditions tables.
Proof.
  intros run1 run2.
  assert (run1 = run2) as Heq.
  { unfold run1, run2, PrepareData.prepare_data.
    by rewrite (PrepareData.seed_forgets 42 g1 g2). }
  rewrite <- Heq. repeat split.
  - unfold run1, PrepareData.prepare_data. by destruct (PrepareData.randint _ _ _).
  - unfold run1, PrepareData.prepare_data. destruct (PrepareData.randint _ _ _). simpl.
    by rewrite <- !list_fmap_compose.
Qed.

(** ** The properties at the worked inputs *)

Ltac dates_ok :=
  unfold birth_dates_ok, condition_starts_ok, medication_starts_ok; simpl;
  repeat (apply Forall_cons_2; [vm_compute; eexists; reflexivity|]);
  apply Forall_nil_2.

Lemma scenario_dates_ok :
  birth_dates_ok Examples.scenario ∧ condition_starts_ok Examples.scenario ∧
  medication_starts_ok Examples.scenario.
Proof. repeat split; dates_ok. Qed.

(** The scenario of the specification, run through the whole pipeline. *)
Example scenario_run :
  ∃ p o c d st',
    run_etl 0 Examples.scenario (new_mapper []) = (Ok (), st') ∧
    db st' = [("person", PersonFrame [p]); ("observation_period", ObservationPeriodFrame [o]);
              ("condition_occurrence", ConditionOccurrenceFrame [c]);
              ("drug_exposure", DrugExposureFrame [d])] ∧
    Person.person_id p = 1 ∧ Person.gender_concept_id p = 8532 ∧
    ConditionOccurrence.condition_occurrence_id c = 1 ∧
    ConditionOccurrence.person_id c = Some 1 ∧
    ConditionOccurrence.condition_status_concept_id c = 4203942 ∧
    ConditionOccurrence.condition_concept_id c = 0.
Proof. eexists _, _, _, _, _. split; [vm_compute; reflexivity|]. by vm_compute. Qed.

(** C1 on the scenario: one patient, one person row with id 1. *)
Lemma person_surrogate_ids_dense_witness :
  birth_dates_ok Examples.scenario ∧
  ∃ omop_person st',
    map_person Examples.scenario (new_mapper []) = (Ok (), st') ∧
    db st' = [("person", PersonFrame omop_person)] ∧
    Person.person_id <$> omop_person = [1].
Proof.
  pose proof scenario_dates_ok as (Hok & _). split; [exact Hok|].
  destruct (person_surrogate_ids_dense Examples.scenario (new_mapper []) Hok)
    as (omop_person & st' & Hrun & Hdb & _ & Hids & _).
  exists omop_person, st'. repeat split; assumption.
Defined.

(** C2 (as amended) on the scenario: p1 resolves to 1, and only p1 does. *)
Lemma identity_map_complete_witness :
  patients_csv Examples.scenario !! 0%nat
    = Some (Examples.patient "p1" "1990-01-01" (Some "nonhispanic")) ∧
  person_id_map (map_person Examples.scenario (new_mapper [])).2 !! "p1" = Some 1 ∧
  ∀ k, person_id_map (map_person Examples.scenario (new_mapper [])).2 !! k = Some 1 →
       k = "p1".
Proof.
  split; [reflexivity|].
  apply (identity_map_complete Examples.scenario [] 0
           (Examples.patient "p1" "1990-01-01" (Some "nonhispanic"))).
  - reflexivity.
  - intros [|[|j]] q Hlt Hq; [lia|discriminate Hq|discriminate Hq].
Defined.

(** C2, as stated, fails on a patients file that repeats an identifier: the
    first row of [Examples.duplicated] has the surrogate id 1, while its
    identifier resolves to 2. *)
Lemma identity_map_duplicate_counterexample :
  ¬ (∀ i p, patients_csv Examples.duplicated !! i = Some p →
       person_id_map (map_person Examples.duplicated (new_mapper [])).2 !! Patients.Id p
         = Some (Z.of_nat i + 1)).
Proof.
  intros Hclaim.
  specialize (Hclaim 0%nat (Examples.patient "p1" "1990-01-01" None) eq_refl).
  vm_compute in Hclaim. discriminate Hclaim.
Qed.

(** C3 on events of the unlisted patient p9: both rows are written, with an empty person reference. *)
Lemma unmapped_reference_tolerated_witness :
  condition_starts_ok Examples.unmapped ∧ medication_starts_ok Examples.unmapped ∧
  (∃ (omop_cond : list ConditionOccurrence.row) st' r,
     map_condition_occurrence Examples.unmapped (map_person Examples.unmapped (new_mapper [])).2
       = (Ok (), st') ∧
     omop_cond !! 0%nat = Some r ∧
     ConditionOccurrence.condition_source_value r = "X1" ∧
     ConditionOccurrence.person_id r = None) ∧
  (∃ (omop_drug : list DrugExposure.row) st' r,
     map_drug_exposure Examples.unmapped (map_person Examples.unmapped (new_mapper [])).2
       = (Ok (), st') ∧
     omop_drug !! 0%nat = Some r ∧
     DrugExposure.person_id r = None).
Proof.
  assert (condition_starts_ok Examples.unmapped) as Hc by dates_ok.
  assert (medication_starts_ok Examples.unmapped) as Hm by dates_ok.
  split; [exact Hc|]. split; [exact Hm|].
  destruct (unmapped_reference_tolerated Examples.unmapped
              (map_person Examples.unmapped (new_mapper [])).2 Hc Hm) as [Hcond Hdrug].
  split.
  - assert (person_id_map (map_person Examples.unmapped (new_mapper [])).2 !! "p9" = None)
      as Hnone by (vm_compute; reflexivity).
    destruct (Hcond 0%nat (Examples.condition "p9" "X1" "2020-01-01" None) eq_refl Hnone)
      as (omop_cond & st' & r & Hrun & _ & _ & Hr & Hcode & Hpid).
    exists omop_cond, st', r. repeat split; assumption.
  - assert (person_id_map (map_person Examples.unmapped (new_mapper [])).2 !! "p9" = None)
      as Hnone by (vm_compute; reflexivity).
    destruct (Hdrug 0%nat (Examples.medication "p9" "D1" "2020-01-10" (Some "2020-01-12"))
                eq_refl Hnone)
      as (omop_drug & st' & r & Hrun & _ & _ & Hr & _ & Hpid).
    exists omop_drug, st', r. repeat split; assumption.
Defined.

(** C4 (as amended) on a medication from 2020-01-10 to 2020-01-12. *)
Lemma days_supply_nonneg_witness :
  medication_starts_ok Examples.unmapped ∧
  ∃ (omop_drug : list DrugExposure.row) st' r,
    map_drug_exposure Examples.unmapped (new_mapper []) = (Ok (), st') ∧
    omop_drug !! 0%nat = Some r ∧
    0 ≤ DrugExposure.days_supply r.
Proof.
  assert (medication_starts_ok Examples.unmapped) as Hm by dates_ok.
  split; [exact Hm|].
  assert (∀ s e : Z,
            to_datetime_scalar "2020-01-10" = Some s →
            Some "2020-01-12" ≫= to_datetime_scalar = Some e → s ≤ e) as Horder.
  { intros s e Hs He. vm_compute in Hs, He.
    injection Hs as <-. injection He as <-. lia. }
  destruct (days_supply_nonneg Examples.unmapped (new_mapper []) 0
              (Examples.medication "p9" "D1" "2020-01-10" (Some "2020-01-12"))
              Hm eq_refl Horder)
    as (omop_drug & st' & r & Hrun & _ & Hr & Hdays).
  exists omop_drug, st', r. repeat split; assumption.
Defined.

(** C4, as stated, fails on a medication that stops before it starts: the
    row of [Examples.early_stop], from 2020-01-10 to 2020-01-05, is written
    with a days_supply of -5. *)
Lemma days_supply_negative_counterexample :
  ∃ r st',
    map_drug_exposure Examples.early_stop (new_mapper []) = (Ok (), st') ∧
    db st' = [("drug_exposure", DrugExposureFrame [r])] ∧
    DrugExposure.days_supply r = -5 ∧
    ¬ 0 ≤ DrugExposure.days_supply r.
Proof.
  eexists _, _. split; [vm_compute; reflexivity|].
  split; [reflexivity|]. split; [reflexivity|]. by vm_compute.
Qed.

(** C5 (as amended) on the scenario: "nonhispanic" resolves to 38003564. *)
Lemma ethnicity_concept_lookup_witness :
  birth_dates_ok Examples.scenario ∧
  ∃ (omop_person : list Person.row) st' r,
    map_person Examples.scenario (new_mapper []) = (Ok (), st') ∧
    omop_person !! 0%nat = Some r ∧
    Person.ethnicity_concept_id r = 38003564.
Proof.
  pose proof scenario_dates_ok as (Hok & _). split; [exact Hok|].
  destruct (ethnicity_concept_lookup Examples.scenario (new_mapper []) Hok)
    as (omop_person & st' & Hrun & _ & Hrows).
  destruct (Hrows 0%nat (Examples.patient "p1" "1990-01-01" (Some "nonhispanic")) eq_refl)
    as (r & Hr & Heth).
  exists omop_person, st', r. repeat split; assumption.
Defined.

(** C5, as stated, fails on the hyphenated spelling: the patient of
    [Examples.hyphenated], whose ethnicity reads "non-hispanic", is written
    with the ethnicity concept 0, not 38003564. *)
Lemma ethnicity_hyphenated_counterexample :
  ∃ r st',
    map_person Examples.hyphenated (new_mapper []) = (Ok (), st') ∧
    db st' = [("person", PersonFrame [r])] ∧
    Person.ethnicity_source_value r = Some "non-hispanic" ∧
    Person.ethnicity_concept_id r = 0 ∧
    Person.ethnicity_concept_id r ≠ 38003564.
Proof.
  eexists _, _. split; [vm_compute; reflexivity|].
  split; [reflexivity|]. split; [reflexivity|]. split; [reflexivity|]. by vm_compute.
Qed.

(** C6 on the open medication of the scenario. *)
Lemma missing_stop_defaults_to_start_witness :
  medication_starts_ok Examples.scenario ∧
  ∃ (omop_drug : list DrugExposure.row) st' r,
    map_drug_exposure Examples.scenario (new_mapper []) = (Ok (), st') ∧
    omop_drug !! 0%nat = Some r ∧
    DrugExposure.drug_exposure_end_date r = DrugExposure.drug_exposure_start_date r ∧
    DrugExposure.days_supply r = 0.
Proof.
  pose proof scenario_dates_ok as (_ & _ & Hm). split; [exact Hm|].
  destruct (missing_stop_defaults_to_start Examples.scenario (new_mapper []) 0
              (Examples.medication "p1" "D1" "2020-01-10" None) Hm eq_refl eq_refl)
    as (omop_drug & st' & r & Hrun & _ & Hr & _ & Hend & Hdays).
  exists omop_drug, st', r. repeat split; assumption.
Defined.

(** C7 on a patients file whose second birth date reads "yesterday". *)
Lemma malformed_birth_date_aborts_witness :
  Exists (λ p, to_datetime_scalar (Patients.BIRTHDATE p) = None)
         (patients_csv Examples.malformed_birth) ∧
  (∃ st', map_person Examples.malformed_birth (new_mapper []) = (Raise DateParseError, st') ∧
          db st' = []) ∧
  (∃ st', run_etl 0 Examples.malformed_birth (new_mapper []) = (Raise DateParseError, st') ∧
          db st' = []).
Proof.
  assert (Exists (λ p, to_datetime_scalar (Patients.BIRTHDATE p) = None)
                 (patients_csv Examples.malformed_birth)) as Hbad.
  { apply Exists_cons_tl, Exists_cons_hd. reflexivity. }
  split; [exact Hbad|].
  exact (malformed_birth_date_aborts 0 Examples.malformed_birth (new_mapper []) Hbad).
Defined.

(** C9 on one patient with empty conditions and medications files. *)
Lemma empty_tables_skipped_witness :
  conditions_csv Examples.hyphenated = [] ∧ medications_csv Examples.hyphenated = [] ∧
  birth_dates_ok Examples.hyphenated ∧
  (∃ st', map_condition_occurrence Examples.hyphenated (new_mapper []) = (Ok (), st') ∧
          db st' = []) ∧
  (∃ st', map_drug_exposure Examples.hyphenated (new_mapper []) = (Ok (), st') ∧
          db st' = []) ∧
  (∃ omop_person obs_period st',
     run_etl 0 Examples.hyphenated (new_mapper []) = (Ok (), st') ∧
     db st' = [("person", PersonFrame omop_person);
               ("observation_period", ObservationPeriodFrame obs_period)] ∧
     length omop_person = 1%nat ∧ length obs_period = 1%nat).
Proof.
  assert (birth_dates_ok Examples.hyphenated) as Hok by dates_ok.
  split; [reflexivity|]. split; [reflexivity|]. split; [exact Hok|].
  destruct (empty_tables_skipped 0 Examples.hyphenated (new_mapper []))
    as (Hcond & Hdrug & _ & Hrun).
  split; [|split].
  - destruct (Hcond eq_refl) as (st' & Hc & Hdb & _). exists st'. repeat split; assumption.
  - destruct (Hdrug eq_refl) as (st' & Hd & Hdb & _). exists st'. repeat split; assumption.
  - destruct (Hrun Hok eq_refl eq_refl)
      as (omop_person & obs_period & st' & Hr & Hdb & Hlp & Hlo).
    exists omop_person, obs_period, st'. repeat split; assumption.
Defined.

(** C10 on two rows that both carry p1: ids 1 and 2 are written, p1 resolves to 2, and so does the condition that references it. *)
Lemma duplicate_identifier_resolves_to_last_witness :
  birth_dates_ok Examples.duplicated ∧ condition_starts_ok Examples.duplicated ∧
  medication_starts_ok Examples.duplicated ∧
  ∃ omop_person st1,
    map_person Examples.duplicated (new_mapper []) = (Ok (), st1) ∧
    Person.person_id <$> omop_person = [1; 2] ∧
    person_id_map st1 !! "p1" = Some 2 ∧
    ∃ (omop_cond : list ConditionOccurrence.row) st3 r,
      map_condition_occurrence Examples.duplicated st1 = (Ok (), st3) ∧
      omop_cond !! 0%nat = Some r ∧
      ConditionOccurrence.person_id r = Some 2.
Proof.
  assert (birth_dates_ok Examples.duplicated) as Hb by dates_ok.
  assert (condition_starts_ok Examples.duplicated) as Hc by dates_ok.
  assert (medication_starts_ok Examples.duplicated) as Hm by dates_ok.
  split; [exact Hb|]. split; [exact Hc|]. split; [exact Hm|].
  assert (∀ j' q', (1 < j')%nat → patients_csv Examples.duplicated !! j' = Some q' →
            Patients.Id q' ≠ "p1") as Hlast.
  { intros [|[|[|j']]] q' Hlt Hq'; (lia || discriminate Hq'). }
  destruct (duplicate_identifier_resolves_to_last Examples.duplicated [] 0 1
              (Examples.patient "p1" "1990-01-01" None)
              (Examples.patient "p1" "1985-05-05" None)
              ltac:(lia) eq_refl eq_refl eq_refl Hlast Hb Hc Hm)
    as (omop_person & st1 & Hrun & _ & Hids & _ & Hmap & _ & Hdown).
  exists omop_person, st1. split; [exact Hrun|]. split; [exact Hids|].
  split; [exact Hmap|].
  destruct (Hdown st1 eq_refl) as [Hcond _].
  destruct (Hcond 0%nat (Examples.condition "p1" "X1" "2020-01-01" None) eq_refl eq_refl)
    as (omop_cond & st3 & r & Hrun3 & _ & Hr & Hpid).
  exists omop_cond, st3, r. repeat split; assumption.
Defined.

(** C8 with the stand-in generator, started in the states 7 and 2024. *)
Lemma date_shift_deterministic_witness :
  PrepareData.prepare_data (H := PrepareData.Lcg.random) 7 (Examples.stored 0)
    = PrepareData.prepare_data (H := PrepareData.Lcg.random) 2024 (Examples.stored 0) ∧
  (PrepareData.prepare_data (H := PrepareData.Lcg.random) 7 (Examples.stored 0)).1
    = (PrepareData.prepare_data (H := PrepareData.Lcg.random) 2024 (Examples.stored 0)).1.
Proof.
  split; [by vm_compute|].
  exact (proj1 (proj2 (proj2 (proj2
    (date_shift_deterministic (H := PrepareData.Lcg.random) 7 2024 (Examples.stored 0)))))).
Defined.

(** * Further properties of the mapper *)

(** ** The rows of each frame *)

Lemma frame_lookup {R} (mk : nat → R) n i :
  (i < n)%nat → (mk <$> seq 0 n) !! i = Some (mk i).
Proof. intros Hi. by rewrite list_lookup_fmap, lookup_seq_lt. Qed.

Lemma lookup_range_len_Some {A} (df : list A) i :
  (i < length df)%nat → range 1 (len df + 1) !! i = Some (Z.of_nat i + 1).
Proof. intros Hi. rewrite range_len. apply lookup_seqZ. unfold len. lia. Qed.

Lemma lookup_total_range_len {A} (df : list A) i :
  (i < length df)%nat → range 1 (len df + 1) !!! i = Z.of_nat i + 1.
Proof. intros Hi. by apply list_lookup_total_correct, lookup_range_len_Some. Qed.

Lemma lookup_total_fmap_Some {A B} `{Inhabited B} (f : A → B) (l : list A) i x :
  l !! i = Some x → (f <$> l) !!! i = f x.
Proof. intros Hx. apply list_lookup_total_correct. by rewrite list_lookup_fmap, Hx. Qed.

Lemma lookup_total_concepts (d : gmap string Z) (cells : list (option string)) i c :
  cells !! i = Some c →
  fillna 0 (Series_map d cells) !!! i = default 0 (c ≫= (d !!.)).
Proof.
  intros Hc. apply list_lookup_total_correct. unfold fillna, Series_map.
  by rewrite !list_lookup_fmap, Hc.
Qed.

Lemma lookup_total_Series_map_ids {R} (m : gmap string Z) (key : R → string) (src : list R) i x :
  src !! i = Some x →
  Series_map m (Some <$> (key <$> src)) !!! i = m !! key x.
Proof.
  intros Hx. apply list_lookup_total_correct. unfold Series_map.
  by rewrite !list_lookup_fmap, Hx.
Qed.

Section Rows.
Context `{Calendar}.

(** The person row written for the source row at position [i]. *)
Lemma map_person_row dir st i p :
  birth_dates_ok dir →
  patients_csv dir !! i = Some p →
  ∃ omop_person b,
    map_person dir st =
      (Ok (), {| person_id_map := person_id_map (map_person dir st).2;
                 db := db st ++ [("person", PersonFrame omop_person)];
                 warnings := warnings st |}) ∧
    length omop_person = length (patients_csv dir) ∧
    to_datetime_scalar (Patients.BIRTHDATE p) = Some b ∧
    omop_person !! i =
      Some {| Person.person_id := Z.of_nat i + 1;
              Person.gender_concept_id :=
                default 0 (Patients.GENDER p ≫= (gender_concepts !!.));
              Person.year_of_birth := dt_year b;
              Person.month_of_birth := dt_month b;
              Person.day_of_birth := dt_day b;
              Person.birth_datetime := b;
              Person.race_concept_id :=
                default 0 (Patients.RACE p ≫= (race_concepts !!.));
              Person.ethnicity_concept_id :=
                default 0 (Patients.ETHNICITY p ≫= (ethnicity_concepts !!.));
              Person.location_id := None;
              Person.provider_id := None;
              Person.care_site_id := None;
              Person.person_source_value := Patients.Id p;
              Person.gender_source_value := Patients.GENDER p;
              Person.race_source_value := Patients.RACE p;
              Person.ethnicity_source_value := Patients.ETHNICITY p;
              Person.gender_source_concept_id := 0;
              Person.race_source_concept_id := 0;
              Person.ethnicity_source_concept_id := 0 |}.
Proof.
  intros Hok Hp. destruct (birth_dates_ok_mapM dir Hok) as [BIRTHDATE Hdates].
  assert ((Patients.BIRTHDATE <$> patients_csv dir) !! i = Some (Patients.BIRTHDATE p))
    as Hcell by (by rewrite list_lookup_fmap, Hp).
  destruct (mapM_lookup _ _ _ _ _ Hdates Hcell) as (b & Hb & Hbi).
  pose proof (lookup_lt_Some _ _ _ Hp) as Hi.
  unfold map_person, read_csv_to_dataframe.
  unfold mbind, M_bind, mret, M_ret, set_person_id_map, bulk_insert, modify. simpl.
  rewrite (to_datetime_Some _ BIRTHDATE) by done. simpl.
  eexists _, b. split; [reflexivity|]. split; [|split; [done|]].
  { by rewrite length_fmap, length_seq, length_range_len. }
  rewrite frame_lookup by (by rewrite length_range_len).
  rewrite (list_lookup_total_correct BIRTHDATE i b Hbi).
  rewrite (lookup_total_range_len _ i Hi).
  rewrite !(lookup_total_concepts _ _ i _ (eq_trans (list_lookup_fmap _ _ _) (f_equal _ Hp))).
  rewrite !(lookup_total_fmap_Some _ _ i p Hp).
  reflexivity.
Qed.

Lemma lookup_coerce cells i c :
  cells !! i = Some c → to_datetime_coerce cells !! i = Some (c ≫= to_datetime_scalar).
Proof. intros Hc. unfold to_datetime_coerce. by rewrite list_lookup_fmap, Hc. Qed.

Lemma lookup_total_coerce cells i c :
  cells !! i = Some c → to_datetime_coerce cells !!! i = c ≫= to_datetime_scalar.
Proof. intros Hc. by apply list_lookup_total_correct, lookup_coerce. Qed.

Lemma lookup_total_fillna_coerce (now : Timestamp) cells i c :
  cells !! i = Some c →
  fillna now (to_datetime_coerce cells) !!! i = default now (c ≫= to_datetime_scalar).
Proof.
  intros Hc. apply list_lookup_total_correct. unfold fillna.
  by rewrite list_lookup_fmap, (lookup_coerce _ _ _ Hc).
Qed.

Lemma lookup_total_status (active resolved : Z) cells i c :
  cells !! i = Some c →
  ((λ b : bool, if b then active else resolved) <$> isna (to_datetime_coerce cells)) !!! i =
    match c ≫= to_datetime_scalar with None => active | Some _ => resolved end.
Proof.
  intros Hc. apply list_lookup_total_correct. unfold isna.
  rewrite !list_lookup_fmap, (lookup_coerce _ _ _ Hc). simpl.
  by destruct (c ≫= to_datetime_scalar).
Qed.

Lemma lookup_fillna_series cells (START : list Timestamp) i c s :
  cells !! i = Some c → START !! i = Some s →
  fillna_series (to_datetime_coerce cells) START !! i =
    Some (default s (c ≫= to_datetime_scalar)).
Proof.
  intros Hc Hs. unfold fillna_series.
  by rewrite lookup_zip_with, (lookup_coerce _ _ _ Hc), Hs.
Qed.

Lemma lookup_total_fillna_series cells (START : list Timestamp) i c s :
  cells !! i = Some c → START !! i = Some s →
  fillna_series (to_datetime_coerce cells) START !!! i = default s (c ≫= to_datetime_scalar).
Proof. intros Hc Hs. by apply list_lookup_total_correct, lookup_fillna_series. Qed.

Lemma lookup_total_days_supply cells (START : list Timestamp) i c s :
  cells !! i = Some c → START !! i = Some s →
  (dt_days <$> zip_with Z.sub (fillna_series (to_datetime_coerce cells) START) START) !!! i =
    dt_days (default s (c ≫= to_datetime_scalar) - s).
Proof.
  intros Hc Hs. apply list_lookup_total_correct.
  pose proof (lookup_fillna_series _ _ _ _ _ Hc Hs) as Hend.
  rewrite list_lookup_fmap, lookup_zip_with.
  unfold Timestamp in *. by rewrite Hend, Hs.
Qed.

(** The observation period written for the source row at position [i]. *)
Lemma map_observation_period_row now dir st i p :
  birth_dates_ok dir →
  patients_csv dir !! i = Some p →
  ∃ obs_period b,
    map_observation_period now dir st =
      (Ok (), {| person_id_map := person_id_map st;
                 db := db st ++ [("observation_period", ObservationPeriodFrame obs_period)];
                 warnings := warnings st |}) ∧
    length obs_period = length (patients_csv dir) ∧
    to_datetime_scalar (Patients.BIRTHDATE p) = Some b ∧
    obs_period !! i =
      Some {| ObservationPeriod.observation_period_id := Z.of_nat i + 1;
              ObservationPeriod.person_id := person_id_map st !! Patients.Id p;
              ObservationPeriod.observation_period_start_date := b;
              ObservationPeriod.observation_period_end_date :=
                default now (Patients.DEATHDATE p ≫= to_datetime_scalar);
              ObservationPeriod.period_type_concept_id := 44814724 |}.
Proof.
  intros Hok Hp. destruct (birth_dates_ok_mapM dir Hok) as [BIRTHDATE Hdates].
  assert ((Patients.BIRTHDATE <$> patients_csv dir) !! i = Some (Patients.BIRTHDATE p))
    as Hcell by (by rewrite list_lookup_fmap, Hp).
  destruct (mapM_lookup _ _ _ _ _ Hdates Hcell) as (b & Hb & Hbi).
  pose proof (lookup_lt_Some _ _ _ Hp) as Hi.
  unfold map_observation_period, read_csv_to_dataframe.
  unfold mbind, M_bind, mret, M_ret, gets, bulk_insert, modify. simpl.
  rewrite (to_datetime_Some _ BIRTHDATE) by done. simpl.
  eexists _, b. split; [reflexivity|]. split; [|split; [done|]].
  { by rewrite length_fmap, length_seq, length_range_len. }
  rewrite frame_lookup by (by rewrite length_range_len).
  rewrite (list_lookup_total_correct BIRTHDATE i b Hbi).
  rewrite (lookup_total_range_len _ i Hi).
  rewrite (lookup_total_Series_map_ids _ _ _ i p Hp).
  rewrite (lookup_total_fillna_coerce now _ i (Patients.DEATHDATE p))
    by (by rewrite list_lookup_fmap, Hp).
  reflexivity.
Qed.

(** The condition row written for the source row at position [k]. *)
Lemma map_condition_occurrence_full_row dir st k c :
  condition_starts_ok dir →
  conditions_csv dir !! k = Some c →
  ∃ omop_cond s,
    map_condition_occurrence dir st =
      (Ok (), {| person_id_map := person_id_map st;
                 db := db st ++ [("condition_occurrence", ConditionOccurrenceFrame omop_cond)];
                 warnings := warnings st |}) ∧
    length omop_cond = length (conditions_csv dir) ∧
    to_datetime_scalar (Conditions.START c) = Some s ∧
    omop_cond !! k =
      Some {| ConditionOccurrence.condition_occurrence_id := Z.of_nat k + 1;
              ConditionOccurrence.person_id := person_id_map st !! Conditions.PATIENT c;
              ConditionOccurrence.condition_concept_id := 0;
              ConditionOccurrence.condition_source_value := Conditions.CODE c;
              ConditionOccurrence.condition_source_concept_id := 0;
              ConditionOccurrence.condition_start_date := s;
              ConditionOccurrence.condition_start_datetime := s;
              ConditionOccurrence.condition_end_date :=
                Conditions.STOP c ≫= to_datetime_scalar;
              ConditionOccurrence.condition_end_datetime :=
                Conditions.STOP c ≫= to_datetime_scalar;
              ConditionOccurrence.condition_type_concept_id := 32020;
              ConditionOccurrence.condition_status_concept_id :=
                match Conditions.STOP c ≫= to_datetime_scalar with
                | None => 4203942
                | Some _ => 4230359
                end;
              ConditionOccurrence.condition_status_source_value := None;
              ConditionOccurrence.stop_reason := None;
              ConditionOccurrence.provider_id := None;
              ConditionOccurrence.visit_occurrence_id := None;
              ConditionOccurrence.visit_detail_id := None |}.
Proof.
  intros Hok Hc. destruct (condition_starts_ok_mapM dir Hok) as [START Hdates].
  assert ((Conditions.START <$> conditions_csv dir) !! k = Some (Conditions.START c))
    as Hcell by (by rewrite list_lookup_fmap, Hc).
  destruct (mapM_lookup _ _ _ _ _ Hdates Hcell) as (s & Hs & Hsk).
  pose proof (lookup_lt_Some _ _ _ Hc) as Hk.
  assert (bool_decide (len (conditions_csv dir) = 0) = false) as Hlen.
  { apply bool_decide_eq_false. rewrite len_nil_iff. by intros Hnil; rewrite Hnil in Hc. }
  unfold map_condition_occurrence, read_csv_to_dataframe.
  unfold mbind, M_bind, mret, M_ret, gets, bulk_insert, modify. simpl.
  rewrite Hlen, (to_datetime_Some _ START) by done. simpl.
  eexists _, s. split; [reflexivity|]. split; [|split; [done|]].
  { by rewrite length_fmap, length_seq, length_range_len. }
  rewrite frame_lookup by (by rewrite length_range_len).
  rewrite (list_lookup_total_correct START k s Hsk).
  rewrite (lookup_total_range_len _ k Hk).
  rewrite (lookup_total_Series_map_ids _ _ _ k c Hc).
  rewrite (lookup_total_fmap_Some _ _ k c Hc).
  rewrite (lookup_total_coerce _ k (Conditions.STOP c))
    by (by rewrite list_lookup_fmap, Hc).
  rewrite (lookup_total_status _ _ _ k (Conditions.STOP c))
    by (by rewrite list_lookup_fmap, Hc).
  reflexivity.
Qed.

(** The drug exposure row written for the source row at position [k]. *)
Lemma map_drug_exposure_full_row dir st k d :
  medication_starts_ok dir →
  medications_csv dir !! k = Some d →
  ∃ omop_drug s,
    map_drug_exposure dir st =
      (Ok (), {| person_id_map := person_id_map st;
                 db := db st ++ [("drug_exposure", DrugExposureFrame omop_drug)];
                 warnings := warnings st |}) ∧
    length omop_drug = length (medications_csv dir) ∧
    to_datetime_scalar (Medications.START d) = Some s ∧
    omop_drug !! k =
      Some {| DrugExposure.drug_exposure_id := Z.of_nat k + 1;
              DrugExposure.person_id := person_id_map st !! Medications.PATIENT d;
              DrugExposure.drug_concept_id := 0;
              DrugExposure.drug_source_value := Medications.CODE d;
              DrugExposure.drug_source_concept_id := 0;
              DrugExposure.drug_exposure_start_date := s;
              DrugExposure.drug_exposure_start_datetime := s;
              DrugExposure.drug_exposure_end_date :=
                default s (Medications.STOP d ≫= to_datetime_scalar);
              DrugExposure.drug_exposure_end_datetime :=
                default s (Medications.STOP d ≫= to_datetime_scalar);
              DrugExposure.drug_type_concept_id := 38000177;
              DrugExposure.stop_reason := Medications.REASONCODE d;
              DrugExposure.refills := None;
              DrugExposure.quantity := None;
              DrugExposure.days_supply :=
                dt_days (default s (Medications.STOP d ≫= to_datetime_scalar) - s);
              DrugExposure.sig := None;
              DrugExposure.route_concept_id := 0;
              DrugExposure.lot_number := None;
              DrugExposure.provider_id := None;
              DrugExposure.visit_occurrence_id := None;
              DrugExposure.visit_detail_id := None;
              DrugExposure.route_source_value := None;
              DrugExposure.dose_unit_source_value := None |}.
Proof.
  intros Hok Hd. destruct (medication_starts_ok_mapM dir Hok) as [START Hdates].
  assert ((Medications.START <$> medications_csv dir) !! k = Some (Medications.START d))
    as Hcell by (by rewrite list_lookup_fmap, Hd).
  destruct (mapM_lookup _ _ _ _ _ Hdates Hcell) as (s & Hs & Hsk).
  pose proof (lookup_lt_Some _ _ _ Hd) as Hk.
  assert (bool_decide (len (medications_csv dir) = 0) = false) as Hlen.
  { apply bool_decide_eq_false. rewrite len_nil_iff. by intros Hnil; rewrite Hnil in Hd. }
  assert ((Medications.STOP <$> medications_csv dir) !! k = Some (Medications.STOP d))
    as Hstop by (by rewrite list_lookup_fmap, Hd).
  unfold map_drug_exposure, read_csv_to_dataframe.
  unfold mbind, M_bind, mret, M_ret, gets, bulk_insert, modify. simpl.
  rewrite Hlen, (to_datetime_Some _ START) by done. simpl.
  eexists _, s. split; [reflexivity|]. split; [|split; [done|]].
  { by rewrite length_fmap, length_seq, length_range_len. }
  rewrite frame_lookup by (by rewrite length_range_len).
  rewrite (lookup_total_days_supply _ _ k _ s Hstop Hsk).
  rewrite !(lookup_total_fillna_series _ _ k _ s Hstop Hsk).
  rewrite (list_lookup_total_correct START k s Hsk).
  rewrite (lookup_total_range_len _ k Hk).
  rewrite (lookup_total_Series_map_ids _ _ _ k d Hd).
  rewrite !(lookup_total_fmap_Some _ _ k d Hd).
  reflexivity.
Qed.

End Rows.

(** ** The lookup tables *)

Lemma gender_concepts_lookup (g : string) :
  gender_concepts !! g =
    if decide (g = "F" ∨ g = "female") then Some 8532
    else if decide (g = "M" ∨ g = "male") then Some 8507
    else None.
Proof.
  unfold gender_concepts. simpl.
  repeat case_decide;
    repeat match goal with Hor : _ ∨ _ |- _ => destruct Hor as [->| ->] end;
    subst; try (vm_compute; reflexivity).
  rewrite !lookup_insert_ne by (intros <-; intuition congruence). apply lookup_empty.
Qed.

Lemma race_concepts_lookup (e : string) :
  race_concepts !! e =
    if decide (e = "white") then Some 8527
    else if decide (e = "black") then Some 8516
    else if decide (e = "asian") then Some 8515
    else if decide (e = "other") then Some 8522
    else None.
Proof.
  unfold race_concepts. simpl.
  repeat case_decide;
    repeat match goal with Hor : _ ∨ _ |- _ => destruct Hor as [->| ->] end;
    subst; try (vm_compute; reflexivity).
  rewrite !lookup_insert_ne by (intros <-; intuition congruence). apply lookup_empty.
Qed.

(** ** More on the identity map *)

Section IdentityMapDomain.
Implicit Types (m : gmap string Z) (pairs : list (string * Z)) (ids : list string).

(** A key the loop visits has a last visit. *)
Lemma last_assignment pairs k :
  k ∈ pairs.*1 →
  ∃ j v, pairs !! j = Some (k, v) ∧
         ∀ j' v', (j < j')%nat → pairs !! j' ≠ Some (k, v').
Proof.
  induction pairs as [|[k0 v0] pairs IH]; intros Hk; [by apply elem_of_nil in Hk|].
  destruct (decide (k ∈ pairs.*1)) as [Hin|Hnotin].
  - destruct (IH Hin) as (j & v & Hj & Hlast). exists (S j), v. split; [done|].
    intros [|j'] v' Hlt; [lia|]. simpl. apply Hlast. lia.
  - rewrite fmap_cons, elem_of_cons in Hk. destruct Hk as [->|Hk]; [|done].
    exists 0%nat, v0. split; [done|].
    intros [|j'] v' Hlt Hj'; [lia|]. simpl in Hj'. apply Hnotin.
    apply list_elem_of_fmap. exists (k0, v'). split; [done|].
    by apply list_elem_of_lookup_2 in Hj'.
Qed.

(** What the loop leaves for a key it visits does not depend on the map it
    started from. *)
Lemma store_mapping_visited pairs m m' k :
  k ∈ pairs.*1 → store_mapping pairs m !! k = store_mapping pairs m' !! k.
Proof.
  intros Hk. destruct (last_assignment pairs k Hk) as (j & v & Hj & Hlast).
  by rewrite !(store_mapping_last pairs _ j k v).
Qed.

(** Running the loop again over the same pairs changes nothing. *)
Lemma store_mapping_idemp pairs m :
  store_mapping pairs (store_mapping pairs m) = store_mapping pairs m.
Proof.
  apply map_eq. intros k. destruct (decide (k ∈ pairs.*1)) as [Hin|Hnotin].
  - by apply store_mapping_visited.
  - by rewrite store_mapping_notin.
Qed.

Lemma fst_zip_ids ids : (zip ids (range 1 (len ids + 1))).*1 = ids.
Proof. apply fst_zip. rewrite length_range_len. lia. Qed.

(** An identifier carried by some row has a last row. *)
Lemma last_row ids k :
  k ∈ ids →
  ∃ j, ids !! j = Some k ∧ ∀ j', (j < j')%nat → ids !! j' ≠ Some k.
Proof.
  intros Hk. rewrite <- (fst_zip_ids ids) in Hk.
  destruct (last_assignment _ k Hk) as (j & v & Hj & Hlast).
  apply lookup_zip_ids in Hj as [Hj ->]. exists j. split; [done|].
  intros j' Hlt Hj'. apply (Hlast j' (Z.of_nat j' + 1) Hlt). by apply lookup_zip_ids.
Qed.

(** The keys of a map built from scratch, and what they resolve to. *)
Lemma person_id_map_Some_inv ids k v :
  store_mapping (zip ids (range 1 (len ids + 1))) ∅ !! k = Some v →
  ∃ j, ids !! j = Some k ∧ v = Z.of_nat j + 1.
Proof.
  intros Hv. apply store_mapping_inv in Hv as [Hv|[j Hj]].
  - by rewrite lookup_empty in Hv.
  - apply lookup_zip_ids in Hj. by exists j.
Qed.

Lemma person_id_map_is_Some ids k :
  is_Some (store_mapping (zip ids (range 1 (len ids + 1))) ∅ !! k) ↔ k ∈ ids.
Proof.
  split.
  - intros [v Hv]. destruct (person_id_map_Some_inv ids k v Hv) as (j & Hj & _).
    by apply list_elem_of_lookup_2 in Hj.
  - intros Hk. destruct (last_row ids k Hk) as (j & Hj & Hlast).
    exists (Z.of_nat j + 1). by apply person_id_map_last.
Qed.

End IdentityMapDomain.

(** ** Person mapping *)

Section PersonStage.
Context `{Calendar}.

(** X1. The person row written for a patient keeps the GENDER cell as the
    gender source value and carries the gender concept 8532 for "F" and
    "female", 8507 for "M" and "male", and 0 for any other text and for an
    empty cell. *)
Theorem gender_concept_lookup dir st i p :
  birth_dates_ok dir →
  patients_csv dir !! i = Some p →
  ∃ omop_person st' r,
    map_person dir st = (Ok (), st') ∧
    db st' = (db st ++ [("person", PersonFrame omop_person)])%list ∧
    omop_person !! i = Some r ∧
    Person.gender_source_value r = Patients.GENDER p ∧
    Person.gender_concept_id r =
      match Patients.GENDER p with
      | Some g =>
          if decide (g = "F" ∨ g = "female") then 8532
          else if decide (g = "M" ∨ g = "male") then 8507
          else 0
      | None => 0
      end.
Proof.
  intros Hok Hp.
  destruct (map_person_row dir st i p Hok Hp) as (omop_person & b & Hrun & _ & _ & Hr).
  eexists omop_person, _, _. split; [exact Hrun|]. split; [done|]. split; [exact Hr|].
  simpl. split; [done|].
  destruct (Patients.GENDER p) as [g|]; [|done]. simpl.
  rewrite gender_concepts_lookup. by repeat case_decide.
Qed.

(** X2. The person row carries the race concept 8527 for "white", 8516 for
    "black", 8515 for "asian", 8522 for "other", and 0 for any other text
    and for an empty cell; the RACE cell is kept as the race source value. *)
Theorem race_concept_lookup dir st i p :
  birth_dates_ok dir →
  patients_csv dir !! i = Some p →
  ∃ omop_person st' r,
    map_person dir st = (Ok (), st') ∧
    db st' = (db st ++ [("person", PersonFrame omop_person)])%list ∧
    omop_person !! i = Some r ∧
    Person.race_source_value r = Patients.RACE p ∧
    Person.race_concept_id r =
      match Patients.RACE p with
      | Some e =>
          if decide (e = "white") then 8527
          else if decide (e = "black") then 8516
          else if decide (e = "asian") then 8515
          else if decide (e = "other") then 8522
          else 0
      | None => 0
      end.
Proof.
  intros Hok Hp.
  destruct (map_person_row dir st i p Hok Hp) as (omop_person & b & Hrun & _ & _ & Hr).
  eexists omop_person, _, _. split; [exact Hrun|]. split; [done|]. split; [exact Hr|].
  simpl. split; [done|].
  destruct (Patients.RACE p) as [e|]; [|done]. simpl.
  rewrite race_concepts_lookup. by repeat case_decide.
Qed.

(** X3. The person row written for a patient holds the parsed birth date
    with its year, month and day, keeps the source identifier and the
    ethnicity cell for traceability, has no location, provider or care site,
    and has 0 for the three source concept ids. *)
Theorem person_row_birth_and_provenance dir st i p :
  birth_dates_ok dir →
  patients_csv dir !! i = Some p →
  ∃ omop_person st' r b,
    map_person dir st = (Ok (), st') ∧
    db st' = (db st ++ [("person", PersonFrame omop_person)])%list ∧
    omop_person !! i = Some r ∧
    to_datetime_scalar (Patients.BIRTHDATE p) = Some b ∧
    Person.birth_datetime r = b ∧
    Person.year_of_birth r = dt_year b ∧
    Person.month_of_birth r = dt_month b ∧
    Person.day_of_birth r = dt_day b ∧
    Person.person_source_value r = Patients.Id p ∧
    Person.ethnicity_source_value r = Patients.ETHNICITY p ∧
    Person.location_id r = None ∧
    Person.provider_id r = None ∧
    Person.care_site_id r = None ∧
    Person.gender_source_concept_id r = 0 ∧
    Person.race_source_concept_id r = 0 ∧
    Person.ethnicity_source_concept_id r = 0.
Proof.
  intros Hok Hp.
  destruct (map_person_row dir st i p Hok Hp) as (omop_person & b & Hrun & _ & Hb & Hr).
  eexists omop_person, _, _, b. split; [exact Hrun|]. split; [done|]. split; [exact Hr|].
  by simpl.
Qed.

(** X4. After [map_person] on a fresh mapper, whether it raised or not, an
    identifier is a key of the identity map exactly when some row of the
    patients file carries it, and the id it resolves to is the 1-based
    position of a row that carries it. *)
Theorem identity_map_domain dir store k :
  let m := person_id_map (map_person dir (new_mapper store)).2 in
  let ids := Patients.Id <$> patients_csv dir in
  (is_Some (m !! k) ↔ k ∈ ids) ∧
  (∀ v, m !! k = Some v →
        1 ≤ v ≤ len (patients_csv dir) ∧ ids !! Z.to_nat (v - 1) = Some k).
Proof.
  intros m ids. unfold m. rewrite map_person_identity_map. simpl. fold ids.
  split; [apply person_id_map_is_Some|].
  intros v Hv. destruct (person_id_map_Some_inv ids k v Hv) as (j & Hj & ->).
  pose proof (lookup_lt_Some _ _ _ Hj) as Hlt. unfold ids in Hlt.
  rewrite length_fmap in Hlt. unfold len. split; [lia|].
  by replace (Z.to_nat (Z.of_nat j + 1 - 1)) with j by lia.
Qed.

(** The frame [map_person] writes depends on the files alone. *)
Lemma map_person_frame_of_files dir st1 st2 :
  birth_dates_ok dir →
  ∃ omop_person,
    map_person dir st1 =
      (Ok (), {| person_id_map := person_id_map (map_person dir st1).2;
                 db := db st1 ++ [("person", PersonFrame omop_person)];
                 warnings := warnings st1 |}) ∧
    map_person dir st2 =
      (Ok (), {| person_id_map := person_id_map (map_person dir st2).2;
                 db := db st2 ++ [("person", PersonFrame omop_person)];
                 warnings := warnings st2 |}).
Proof.
  intros Hok. destruct (birth_dates_ok_mapM dir Hok) as [BIRTHDATE Hdates].
  unfold map_person, read_csv_to_dataframe.
  unfold mbind, M_bind, mret, M_ret, set_person_id_map, bulk_insert, modify. simpl.
  rewrite !(to_datetime_Some _ BIRTHDATE) by done. simpl.
  eexists. split; reflexivity.
Qed.

(** X5. [map_person] does not recognise a second run: run again on the
    state it left, it appends the same person frame once more, with the same
    ids 1..N, and leaves the identity map as the first run built it. *)
Theorem map_person_rerun_duplicates dir st :
  birth_dates_ok dir →
  ∃ omop_person st1 st2,
    map_person dir st = (Ok (), st1) ∧
    map_person dir st1 = (Ok (), st2) ∧
    db st2 = (db st ++ [("person", PersonFrame omop_person);
                        ("person", PersonFrame omop_person)])%list ∧
    Person.person_id <$> omop_person = seqZ 1 (len (patients_csv dir)) ∧
    person_id_map st2 = person_id_map st1.
Proof.
  intros Hok.
  destruct (map_person_frame_of_files dir st (map_person dir st).2 Hok)
    as (omop_person & Hrun1 & Hrun2).
  pose proof (map_person_run dir st) as Hcols. cbv zeta in Hcols.
  destruct (birth_dates_ok_mapM dir Hok) as [BIRTHDATE Hdates]. rewrite Hdates in Hcols.
  destruct Hcols as (omop_person' & Hrun1' & Hids & _).
  assert (omop_person' = omop_person) as ->.
  { rewrite Hrun1 in Hrun1'. by injection Hrun1' as _ [=]%app_inv_head. }
  eexists omop_person, _, _. split; [exact Hrun1|].
  rewrite Hrun1 in Hrun2. simpl in Hrun2. split; [exact Hrun2|]. simpl.
  split; [by rewrite <- app_assoc|]. split; [by rewrite Hids, range_len|].
  rewrite !map_person_identity_map. simpl. apply store_mapping_idemp.
Qed.

End PersonStage.

(** ** Observation periods, conditions and drug exposures *)

Section LaterStages.
Context `{Calendar}.

(** X6. [map_observation_period] writes one row per patient.  The row at
    the position of a patient has the id of that position, starts at the
    parsed birth date, ends at the death date when the DEATHDATE cell holds a
    date and at the current time otherwise (an empty cell and text that is
    not a date alike, without raising), and has the period type 44814724. *)
Theorem observation_period_rows now dir st i p :
  birth_dates_ok dir →
  patients_csv dir !! i = Some p →
  ∃ obs_period st' r b,
    map_observation_period now dir st = (Ok (), st') ∧
    db st' = (db st ++ [("observation_period", ObservationPeriodFrame obs_period)])%list ∧
    length obs_period = length (patients_csv dir) ∧
    obs_period !! i = Some r ∧
    to_datetime_scalar (Patients.BIRTHDATE p) = Some b ∧
    ObservationPeriod.observation_period_id r = Z.of_nat i + 1 ∧
    ObservationPeriod.observation_period_start_date r = b ∧
    ObservationPeriod.observation_period_end_date r =
      match Patients.DEATHDATE p with
      | Some cell =>
          match to_datetime_scalar cell with
          | Some death => death
          | None => now
          end
      | None => now
      end ∧
    ObservationPeriod.period_type_concept_id r = 44814724.
Proof.
  intros Hok Hp.
  destruct (map_observation_period_row now dir st i p Hok Hp)
    as (obs_period & b & Hrun & Hlen & Hb & Hr).
  eexists obs_period, _, _, b. split; [exact Hrun|]. split; [done|]. split; [done|].
  split; [exact Hr|]. simpl. repeat split; try done.
  by destruct (Patients.DEATHDATE p).
Qed.


(** X8. The condition row written for a source row starts at the parsed
    START; its end date is the parsed STOP, empty when the STOP cell is empty
    or is not a date; its status is 4203942 (active) when that end date is
    empty and 4230359 (resolved) otherwise.  The condition concept is the
    placeholder 0, the source code is kept, and the type concept is 32020. *)
Theorem condition_rows dir st k c :
  condition_starts_ok dir →
  conditions_csv dir !! k = Some c →
  ∃ omop_cond st' r s,
    map_condition_occurrence dir st = (Ok (), st') ∧
    db st' = (db st ++ [("condition_occurrence", ConditionOccurrenceFrame omop_cond)])%list ∧
    omop_cond !! k = Some r ∧
    to_datetime_scalar (Conditions.START c) = Some s ∧
    ConditionOccurrence.condition_start_date r = s ∧
    ConditionOccurrence.condition_start_datetime r = s ∧
    ConditionOccurrence.condition_end_date r =
      match Conditions.STOP c with
      | Some cell => to_datetime_scalar cell
      | None => None
      end ∧
    ConditionOccurrence.condition_end_datetime r = ConditionOccurrence.condition_end_date r ∧
    ConditionOccurrence.condition_status_concept_id r =
      match ConditionOccurrence.condition_end_date r with
      | None => 4203942
      | Some _ => 4230359
      end ∧
    ConditionOccurrence.condition_concept_id r = 0 ∧
    ConditionOccurrence.condition_source_value r = Conditions.CODE c ∧
    ConditionOccurrence.condition_type_concept_id r = 32020.
Proof.
  intros Hok Hc.
  destruct (map_condition_occurrence_full_row dir st k c Hok Hc)
    as (omop_cond & s & Hrun & _ & Hs & Hr).
  eexists omop_cond, _, _, s. split; [exact Hrun|]. split; [done|].
  split; [exact Hr|]. simpl. repeat split; try done.
Qed.

(** X9. The drug exposure row written for a source row passes the
    REASONCODE cell through as the stop reason and keeps the source code; the
    drug concept and the route concept are 0 and the type concept is
    38000177.  When the STOP cell holds a date, that date is the end date,
    and days_supply is the number of whole days from start to end, rounded
    towards minus infinity. *)
Theorem drug_exposure_rows dir st k d :
  medication_starts_ok dir →
  medications_csv dir !! k = Some d →
  ∃ omop_drug st' r s,
    map_drug_exposure dir st = (Ok (), st') ∧
    db st' = (db st ++ [("drug_exposure", DrugExposureFrame omop_drug)])%list ∧
    omop_drug !! k = Some r ∧
    to_datetime_scalar (Medications.START d) = Some s ∧
    DrugExposure.drug_exposure_start_date r = s ∧
    DrugExposure.drug_exposure_start_datetime r = s ∧
    DrugExposure.drug_exposure_end_datetime r = DrugExposure.drug_exposure_end_date r ∧
    DrugExposure.stop_reason r = Medications.REASONCODE d ∧
    DrugExposure.drug_source_value r = Medications.CODE d ∧
    DrugExposure.drug_concept_id r = 0 ∧
    DrugExposure.route_concept_id r = 0 ∧
    DrugExposure.drug_type_concept_id r = 38000177 ∧
    (∀ cell e, Medications.STOP d = Some cell → to_datetime_scalar cell = Some e →
       DrugExposure.drug_exposure_end_date r = e ∧
       DrugExposure.days_supply r * ns_per_day ≤ e - s
         < (DrugExposure.days_supply r + 1) * ns_per_day).
Proof.
  intros Hok Hd.
  destruct (map_drug_exposure_full_row dir st k d Hok Hd)
    as (omop_drug & s & Hrun & _ & Hs & Hr).
  eexists omop_drug, _, _, s. split; [exact Hrun|]. split; [done|].
  split; [exact Hr|]. simpl. repeat (split; [done|]).
  intros cell e Hcell He. rewrite Hcell. simpl. rewrite He. simpl.
  split; [done|]. unfold dt_days.
  pose proof (Z.mod_pos_bound (e - s) ns_per_day) as Hmod.
  pose proof (Z.div_mod (e - s) ns_per_day) as Hdiv.
  unfold ns_per_day in *. lia.
Qed.

End LaterStages.

(** ** How the stages end *)

Section Outcomes.
Context `{Calendar}.

Lemma birth_dates_ok_iff dir :
  birth_dates_ok dir ↔
  is_Some (mapM to_datetime_scalar (Patients.BIRTHDATE <$> patients_csv dir)).
Proof. unfold birth_dates_ok. by rewrite mapM_is_Some, Forall_fmap. Qed.

Lemma condition_starts_ok_iff dir :
  condition_starts_ok dir ↔
  is_Some (mapM to_datetime_scalar (Conditions.START <$> conditions_csv dir)).
Proof. unfold condition_starts_ok. by rewrite mapM_is_Some, Forall_fmap. Qed.

Lemma medication_starts_ok_iff dir :
  medication_starts_ok dir ↔
  is_Some (mapM to_datetime_scalar (Medications.START <$> medications_csv dir)).
Proof. unfold medication_starts_ok. by rewrite mapM_is_Some, Forall_fmap. Qed.

(** [map_person] either writes one frame of N rows or raises with the store
    as it was. *)
Lemma map_person_outcome dir st :
  (birth_dates_ok dir ∧
   ∃ omop_person,
     map_person dir st =
       (Ok (), {| person_id_map := person_id_map (map_person dir st).2;
                  db := db st ++ [("person", PersonFrame omop_person)];
                  warnings := warnings st |}) ∧
     length omop_person = length (patients_csv dir)) ∨
  (¬ birth_dates_ok dir ∧
   map_person dir st =
     (Raise DateParseError,
      {| person_id_map := person_id_map (map_person dir st).2;
         db := db st; warnings := warnings st |})).
Proof.
  pose proof (map_person_run dir st) as Hrun. cbv zeta in Hrun.
  rewrite birth_dates_ok_iff.
  destruct (mapM _ _) as [BIRTHDATE|] eqn:Hdates.
  - left. split; [done|]. destruct Hrun as (omop_person & Hrun & Hids & _).
    exists omop_person. rewrite Hrun. split; [done|].
    rewrite <- (length_fmap Person.person_id), Hids. apply length_range_len.
  - right. split; [by intros [? ?]|]. by rewrite Hrun.
Qed.

Lemma map_observation_period_outcome now dir st :
  (birth_dates_ok dir ∧
   ∃ obs_period,
     map_observation_period now dir st =
       (Ok (), {| person_id_map := person_id_map st;
                  db := db st ++ [("observation_period", ObservationPeriodFrame obs_period)];
                  warnings := warnings st |}) ∧
     length obs_period = length (patients_csv dir)) ∨
  (¬ birth_dates_ok dir ∧ map_observation_period now dir st = (Raise DateParseError, st)).
Proof.
  pose proof (map_observation_period_run now dir st) as Hrun. cbv zeta in Hrun.
  rewrite birth_dates_ok_iff.
  destruct (mapM _ _) as [BIRTHDATE|] eqn:Hdates.
  - left. split; [done|]. destruct Hrun as (obs_period & Hrun & Hids & _).
    exists obs_period. split; [done|].
    rewrite <- (length_fmap ObservationPeriod.observation_period_id), Hids.
    apply length_range_len.
  - right. split; [by intros [? ?]|done].
Qed.

Lemma map_condition_occurrence_outcome dir st :
  (conditions_csv dir = [] ∧
   map_condition_occurrence dir st =
     (Ok (), {| person_id_map := person_id_map st; db := db st;
                warnings := warnings st ++ ["  ⚠ No conditions found in CSV"] |})) ∨
  (conditions_csv dir ≠ [] ∧ condition_starts_ok dir ∧
   ∃ omop_cond,
     map_condition_occurrence dir st =
       (Ok (), {| person_id_map := person_id_map st;
                  db := db st ++ [("condition_occurrence", ConditionOccurrenceFrame omop_cond)];
                  warnings := warnings st |}) ∧
     length omop_cond = length (conditions_csv dir)) ∨
  (¬ condition_starts_ok dir ∧
   map_condition_occurrence dir st = (Raise DateParseError, st)).
Proof.
  destruct (decide (conditions_csv dir = [])) as [Hnil|Hne].
  { left. split; [done|]. by apply map_condition_occurrence_empty. }
  right. pose proof (map_condition_occurrence_run dir st Hne) as Hrun. cbv zeta in Hrun.
  rewrite condition_starts_ok_iff.
  destruct (mapM _ _) as [START|] eqn:Hdates.
  - left. split; [done|]. split; [done|]. destruct Hrun as (omop_cond & Hrun & Hids & _).
    exists omop_cond. split; [done|].
    rewrite <- (length_fmap ConditionOccurrence.condition_occurrence_id), Hids.
    apply length_range_len.
  - right. split; [by intros [? ?]|done].
Qed.

Lemma map_drug_exposure_outcome dir st :
  (medications_csv dir = [] ∧
   map_drug_exposure dir st =
     (Ok (), {| person_id_map := person_id_map st; db := db st;
                warnings := warnings st ++ ["  ⚠ No medications found in CSV"] |})) ∨
  (medications_csv dir ≠ [] ∧ medication_starts_ok dir ∧
   ∃ omop_drug,
     map_drug_exposure dir st =
       (Ok (), {| person_id_map := person_id_map st;
                  db := db st ++ [("drug_exposure", DrugExposureFrame omop_drug)];
                  warnings := warnings st |}) ∧
     length omop_drug = length (medications_csv dir)) ∨
  (¬ medication_starts_ok dir ∧
   map_drug_exposure dir st = (Raise DateParseError, st)).
Proof.
  destruct (decide (medications_csv dir = [])) as [Hnil|Hne].
  { left. split; [done|]. by apply map_drug_exposure_empty. }
  right. pose proof (map_drug_exposure_run dir st Hne) as Hrun. cbv zeta in Hrun.
  rewrite medication_starts_ok_iff.
  destruct (mapM _ _) as [START|] eqn:Hdates.
  - left. split; [done|]. split; [done|].
    destruct Hrun as (omop_drug & Hrun & Hids & _).
    exists omop_drug. split; [done|].
    rewrite <- (length_fmap DrugExposure.drug_exposure_id), Hids.
    apply length_range_len.
  - right. split; [by intros [? ?]|done].
Qed.

End Outcomes.

(** ** The pipeline *)

Lemma bind_Raise {A B} (m : M A) (f : A → M B) st e st' :
  m st = (Raise e, st') → (m ≫= f) st = (Raise e, st').
Proof. unfold mbind, M_bind. by intros ->. Qed.

Lemma count_rows_app table (store added : list (string * DataFrame)) :
  count_rows table (store ++ added) = count_rows table store + count_rows table added.
Proof.
  unfold count_rows. induction store as [|entry store IH]; simpl; [done|].
  case_decide; lia.
Qed.

Lemma count_rows_nonneg table (store : list (string * DataFrame)) :
  0 ≤ count_rows table store.
Proof.
  induction store as [|[name df] store IH]; [done|].
  change (0 ≤ if decide (name = table) then frame_len df + count_rows table store
              else count_rows table store).
  assert (0 ≤ frame_len df) by (destruct df; unfold frame_len, len; lia).
  case_decide; lia.
Qed.

Section Pipeline.
Context `{Calendar}.

(** What a condition or drug stage adds when it returns: nothing but a
    warning for an empty file, one frame with a row per source row otherwise. *)
Lemma map_condition_occurrence_ok dir st :
  condition_starts_ok dir →
  ∃ added warned,
    map_condition_occurrence dir st =
      (Ok (), {| person_id_map := person_id_map st; db := db st ++ added;
                 warnings := warnings st ++ warned |}) ∧
    (conditions_csv dir = [] ∧ added = [] ∨
     ∃ omop_cond, added = [("condition_occurrence", ConditionOccurrenceFrame omop_cond)] ∧
                  length omop_cond = length (conditions_csv dir)).
Proof.
  intros Hok.
  destruct (map_condition_occurrence_outcome dir st)
    as [[Hnil Hrun]|[(Hne & _ & omop_cond & Hrun & Hlen)|[Hbad _]]]; [| |done].
  - exists [], ["  ⚠ No conditions found in CSV"]. rewrite app_nil_r. split; [done|]. by left.
  - exists [("condition_occurrence", ConditionOccurrenceFrame omop_cond)], [].
    rewrite app_nil_r. split; [done|]. right. by exists omop_cond.
Qed.

Lemma map_drug_exposure_ok dir st :
  medication_starts_ok dir →
  ∃ added warned,
    map_drug_exposure dir st =
      (Ok (), {| person_id_map := person_id_map st; db := db st ++ added;
                 warnings := warnings st ++ warned |}) ∧
    (medications_csv dir = [] ∧ added = [] ∨
     ∃ omop_drug, added = [("drug_exposure", DrugExposureFrame omop_drug)] ∧
                  length omop_drug = length (medications_csv dir)).
Proof.
  intros Hok.
  destruct (map_drug_exposure_outcome dir st)
    as [[Hnil Hrun]|[(Hne & _ & omop_drug & Hrun & Hlen)|[Hbad _]]]; [| |done].
  - exists [], ["  ⚠ No medications found in CSV"]. rewrite app_nil_r. split; [done|]. by left.
  - exists [("drug_exposure", DrugExposureFrame omop_drug)], [].
    rewrite app_nil_r. split; [done|]. right. by exists omop_drug.
Qed.

(** The first two stages on a patients file whose birth dates are dates. *)
Lemma run_etl_first_stages now dir st (rest : M unit) :
  birth_dates_ok dir →
  ∃ omop_person obs_period,
    length omop_person = length (patients_csv dir) ∧
    length obs_period = length (patients_csv dir) ∧
    (map_person dir;; map_observation_period now dir;; rest) st =
      rest {| person_id_map := person_id_map (map_person dir st).2;
              db := db st ++ [("person", PersonFrame omop_person);
                              ("observation_period", ObservationPeriodFrame obs_period)];
              warnings := warnings st |}.
Proof.
  intros Hok.
  destruct (person_then_observation_period now dir st Hok)
    as (omop_person & obs_period & Hp & Ho & Hlp & Hlo).
  exists omop_person, obs_period. split; [done|]. split; [done|].
  rewrite Hp in Ho. simpl in Ho.
  by rewrite (bind_Ok _ _ _ _ _ Hp), (bind_Ok _ _ _ _ _ Ho).
Qed.

(** X10. The ids of the condition and drug frames are 1..N of their own
    file, whatever the store already holds: each table has its own sequence,
    and neither continues from rows loaded before. *)
Theorem event_ids_restart_at_one dir st :
  condition_starts_ok dir →
  medication_starts_ok dir →
  conditions_csv dir ≠ [] →
  medications_csv dir ≠ [] →
  ∃ omop_cond omop_drug st1 st2,
    map_condition_occurrence dir st = (Ok (), st1) ∧
    map_drug_exposure dir st1 = (Ok (), st2) ∧
    db st2 = (db st ++ [("condition_occurrence", ConditionOccurrenceFrame omop_cond);
                        ("drug_exposure", DrugExposureFrame omop_drug)])%list ∧
    ConditionOccurrence.condition_occurrence_id <$> omop_cond =
      seqZ 1 (len (conditions_csv dir)) ∧
    DrugExposure.drug_exposure_id <$> omop_drug = seqZ 1 (len (medications_csv dir)).
Proof.
  intros Hcond Hmeds Hcne Hmne.
  destruct (condition_starts_ok_mapM dir Hcond) as [CSTART Hcdates].
  destruct (medication_starts_ok_mapM dir Hmeds) as [MSTART Hmdates].
  pose proof (map_condition_occurrence_run dir st Hcne) as Hc. cbv zeta in Hc.
  rewrite Hcdates in Hc. destruct Hc as (omop_cond & Hc & Hcids & _).
  pose proof (map_drug_exposure_run dir (map_condition_occurrence dir st).2 Hmne) as Hd.
  cbv zeta in Hd. rewrite Hmdates in Hd. destruct Hd as (omop_drug & Hd & Hdids & _).
  eexists omop_cond, omop_drug, _, _. split; [exact Hc|].
  rewrite Hc in Hd. simpl in Hd. split; [exact Hd|]. simpl.
  split; [by rewrite <- app_assoc|]. by rewrite Hcids, Hdids, !range_len.
Qed.

(** X11. Only [map_person] writes the identity map: the three later stages
    leave it as they found it, whether they return or raise, and so the map
    at the end of [run_etl] is the one [map_person] built. *)
Theorem identity_map_read_only now dir st :
  person_id_map (map_observation_period now dir st).2 = person_id_map st ∧
  person_id_map (map_condition_occurrence dir st).2 = person_id_map st ∧
  person_id_map (map_drug_exposure dir st).2 = person_id_map st ∧
  person_id_map (run_etl now dir st).2 = person_id_map (map_person dir st).2.
Proof.
  assert (∀ st, person_id_map (map_observation_period now dir st).2 = person_id_map st) as Ho.
  { intros st0. by destruct (map_observation_period_outcome now dir st0)
      as [(_ & ? & -> & _)|[_ ->]]. }
  assert (∀ st, person_id_map (map_condition_occurrence dir st).2 = person_id_map st) as Hc.
  { intros st0. by destruct (map_condition_occurrence_outcome dir st0)
      as [[_ ->]|[(_ & _ & ? & -> & _)|[_ ->]]]. }
  assert (∀ st, person_id_map (map_drug_exposure dir st).2 = person_id_map st) as Hd.
  { intros st0. by destruct (map_drug_exposure_outcome dir st0)
      as [[_ ->]|[(_ & _ & ? & -> & _)|[_ ->]]]. }
  split; [done|]. split; [done|]. split; [done|].
  unfold run_etl, mbind, M_bind.
  destruct (map_person dir st) as [[[]|e1] st1]; [|done]. simpl.
  specialize (Ho st1). destruct (map_observation_period now dir st1) as [[[]|e2] st2];
    [|done]. simpl in Ho.
  specialize (Hc st2). destruct (map_condition_occurrence dir st2) as [[[]|e3] st3];
    simpl in *; [|congruence].
  specialize (Hd st3). congruence.
Qed.

(** X12. Every stage is all or nothing towards the store: when it returns
    it has appended at most one frame after what the store held, and when it
    raises the store is as it was.  No stage removes or rewrites rows. *)
Theorem stages_append_whole_frames now dir st :
  let atomic (stage : M unit) :=
    match stage st with
    | (Ok _, st') => ∃ added, db st' = (db st ++ added)%list ∧ (length added ≤ 1)%nat
    | (Raise _, st') => db st' = db st
    end in
  atomic (map_person dir) ∧
  atomic (map_observation_period now dir) ∧
  atomic (map_condition_occurrence dir) ∧
  atomic (map_drug_exposure dir).
Proof.
  intros atomic. unfold atomic. repeat split.
  - destruct (map_person_outcome dir st) as [(_ & ? & -> & _)|[_ ->]]; [|done].
    eexists. split; [done|]. simpl. lia.
  - destruct (map_observation_period_outcome now dir st) as [(_ & ? & -> & _)|[_ ->]]; [|done].
    eexists. split; [done|]. simpl. lia.
  - destruct (map_condition_occurrence_outcome dir st)
      as [[_ ->]|[(_ & _ & ? & -> & _)|[_ ->]]]; [| |done].
    + exists []. split; [by rewrite app_nil_r|simpl; lia].
    + eexists. split; [done|]. simpl. lia.
  - destruct (map_drug_exposure_outcome dir st)
      as [[_ ->]|[(_ & _ & ? & -> & _)|[_ ->]]]; [| |done].
    + exists []. split; [by rewrite app_nil_r|simpl; lia].
    + eexists. split; [done|]. simpl. lia.
Qed.

End Pipeline.

Section Integrity.
Context `{Calendar}.

(** X13. In a state that holds the identity map [map_person] built on a
    fresh mapper, a condition or medication row is written with a person
    reference exactly when its patient identifier occurs in the patients
    file, and a reference that is written is the 1-based position of a
    patients row with that identifier: no reference points outside the
    person frame or to another patient. *)
Theorem event_person_reference dir store st :
  person_id_map st = person_id_map (map_person dir (new_mapper store)).2 →
  condition_starts_ok dir →
  medication_starts_ok dir →
  (∀ k c, conditions_csv dir !! k = Some c →
     ∃ omop_cond st' r,
       map_condition_occurrence dir st = (Ok (), st') ∧
       db st' = (db st ++ [("condition_occurrence", ConditionOccurrenceFrame omop_cond)])%list ∧
       omop_cond !! k = Some r ∧
       (is_Some (ConditionOccurrence.person_id r) ↔
          Conditions.PATIENT c ∈ Patients.Id <$> patients_csv dir) ∧
       (∀ v, ConditionOccurrence.person_id r = Some v →
          ∃ j q, patients_csv dir !! j = Some q ∧
                 Patients.Id q = Conditions.PATIENT c ∧ v = Z.of_nat j + 1)) ∧
  (∀ k d, medications_csv dir !! k = Some d →
     ∃ omop_drug st' r,
       map_drug_exposure dir st = (Ok (), st') ∧
       db st' = (db st ++ [("drug_exposure", DrugExposureFrame omop_drug)])%list ∧
       omop_drug !! k = Some r ∧
       (is_Some (DrugExposure.person_id r) ↔
          Medications.PATIENT d ∈ Patients.Id <$> patients_csv dir) ∧
       (∀ v, DrugExposure.person_id r = Some v →
          ∃ j q, patients_csv dir !! j = Some q ∧
                 Patients.Id q = Medications.PATIENT d ∧ v = Z.of_nat j + 1)).
Proof.
  intros Hmap Hcond Hmeds.
  rewrite map_person_identity_map in Hmap. simpl in Hmap.
  assert (∀ key v, person_id_map st !! key = Some v →
            ∃ j q, patients_csv dir !! j = Some q ∧ Patients.Id q = key ∧
                   v = Z.of_nat j + 1) as Hinv.
  { intros key v Hv. rewrite Hmap in Hv.
    destruct (person_id_map_Some_inv _ _ _ Hv) as (j & Hj & ->).
    apply list_lookup_fmap_Some in Hj as (q & -> & Hq). by exists j, q. }
  split.
  - intros k c Hc.
    destruct (map_condition_occurrence_full_row dir st k c Hcond Hc)
      as (omop_cond & s & Hrun & _ & _ & Hr).
    eexists omop_cond, _, _. split; [exact Hrun|]. split; [done|].
    split; [exact Hr|]. simpl. split; [|by apply Hinv].
    rewrite Hmap. apply person_id_map_is_Some.
  - intros k d Hd.
    destruct (map_drug_exposure_full_row dir st k d Hmeds Hd)
      as (omop_drug & s & Hrun & _ & _ & Hr).
    eexists omop_drug, _, _. split; [exact Hrun|]. split; [done|].
    split; [exact Hr|]. simpl. split; [|by apply Hinv].
    rewrite Hmap. apply person_id_map_is_Some.
Qed.

(** Every stage of the pipeline on files whose required dates are dates. *)
Lemma run_etl_ok now dir st :
  birth_dates_ok dir → condition_starts_ok dir → medication_starts_ok dir →
  ∃ omop_person obs_period cond_added drug_added warned,
    run_etl now dir st =
      (Ok (), {| person_id_map := person_id_map (map_person dir st).2;
                 db := db st ++ [("person", PersonFrame omop_person);
                                 ("observation_period", ObservationPeriodFrame obs_period)]
                         ++ cond_added ++ drug_added;
                 warnings := warnings st ++ warned |}) ∧
    length omop_person = length (patients_csv dir) ∧
    length obs_period = length (patients_csv dir) ∧
    (conditions_csv dir = [] ∧ cond_added = [] ∨
     ∃ omop_cond, cond_added = [("condition_occurrence", ConditionOccurrenceFrame omop_cond)] ∧
                  length omop_cond = length (conditions_csv dir)) ∧
    (medications_csv dir = [] ∧ drug_added = [] ∨
     ∃ omop_drug, drug_added = [("drug_exposure", DrugExposureFrame omop_drug)] ∧
                  length omop_drug = length (medications_csv dir)).
Proof.
  intros Hb Hc Hm. unfold run_etl.
  destruct (run_etl_first_stages now dir st
              (map_condition_occurrence dir;; map_drug_exposure dir) Hb)
    as (omop_person & obs_period & Hlp & Hlo & ->).
  destruct (map_condition_occurrence_ok dir
              {| person_id_map := person_id_map (map_person dir st).2;
                 db := db st ++ [("person", PersonFrame omop_person);
                                 ("observation_period", ObservationPeriodFrame obs_period)];
                 warnings := warnings st |} Hc)
    as (cond_added & cwarned & Hcrun & Hcshape).
  simpl in Hcrun. rewrite (bind_Ok _ _ _ _ _ Hcrun).
  match goal with
  | |- context [map_drug_exposure dir ?s] =>
      destruct (map_drug_exposure_ok dir s Hm) as (drug_added & dwarned & Hdrun & Hdshape)
  end.
  eexists omop_person, obs_period, cond_added, drug_added, (cwarned ++ dwarned)%list.
  rewrite Hdrun. simpl. by rewrite <- !app_assoc.
Qed.

(** The pipeline stopped by a condition start that is not a date. *)
Lemma run_etl_raise_conditions now dir st :
  birth_dates_ok dir → ¬ condition_starts_ok dir →
  ∃ omop_person obs_period,
    run_etl now dir st =
      (Raise DateParseError,
       {| person_id_map := person_id_map (map_person dir st).2;
          db := db st ++ [("person", PersonFrame omop_person);
                          ("observation_period", ObservationPeriodFrame obs_period)];
          warnings := warnings st |}) ∧
    length omop_person = length (patients_csv dir) ∧
    length obs_period = length (patients_csv dir).
Proof.
  intros Hb Hc. unfold run_etl.
  destruct (run_etl_first_stages now dir st
              (map_condition_occurrence dir;; map_drug_exposure dir) Hb)
    as (omop_person & obs_period & Hlp & Hlo & ->).
  exists omop_person, obs_period. split; [|done].
  apply bind_Raise.
  destruct (map_condition_occurrence_outcome dir
              {| person_id_map := person_id_map (map_person dir st).2;
                 db := db st ++ [("person", PersonFrame omop_person);
                                 ("observation_period", ObservationPeriodFrame obs_period)];
                 warnings := warnings st |})
    as [[Hnil _]|[(_ & Hok & _)|[_ Hrun]]]; [|done|done].
  exfalso. apply Hc. unfold condition_starts_ok. rewrite Hnil. constructor.
Qed.

(** The pipeline stopped by a medication start that is not a date. *)
Lemma run_etl_raise_medications now dir st :
  birth_dates_ok dir → condition_starts_ok dir → ¬ medication_starts_ok dir →
  ∃ omop_person obs_period cond_added warned,
    run_etl now dir st =
      (Raise DateParseError,
       {| person_id_map := person_id_map (map_person dir st).2;
          db := db st ++ [("person", PersonFrame omop_person);
                          ("observation_period", ObservationPeriodFrame obs_period)]
                  ++ cond_added;
          warnings := warnings st ++ warned |}) ∧
    length omop_person = length (patients_csv dir) ∧
    length obs_period = length (patients_csv dir) ∧
    (conditions_csv dir = [] ∧ cond_added = [] ∨
     ∃ omop_cond, cond_added = [("condition_occurrence", ConditionOccurrenceFrame omop_cond)] ∧
                  length omop_cond = length (conditions_csv dir)).
Proof.
  intros Hb Hc Hm. unfold run_etl.
  destruct (run_etl_first_stages now dir st
              (map_condition_occurrence dir;; map_drug_exposure dir) Hb)
    as (omop_person & obs_period & Hlp & Hlo & ->).
  destruct (map_condition_occurrence_ok dir
              {| person_id_map := person_id_map (map_person dir st).2;
                 db := db st ++ [("person", PersonFrame omop_person);
                                 ("observation_period", ObservationPeriodFrame obs_period)];
                 warnings := warnings st |} Hc)
    as (cond_added & cwarned & Hcrun & Hcshape).
  simpl in Hcrun. rewrite (bind_Ok _ _ _ _ _ Hcrun).
  exists omop_person, obs_period, cond_added, cwarned. split; [|done].
  match goal with
  | |- map_drug_exposure dir ?s = _ =>
      destruct (map_drug_exposure_outcome dir s) as [[Hnil _]|[(_ & Hok & _)|[_ Hrun]]]
  end; [|done|].
  - exfalso. apply Hm. unfold medication_starts_ok. rewrite Hnil. constructor.
  - rewrite Hrun. by rewrite <- app_assoc.
Qed.

(** The pipeline stopped by a birth date that is not a date. *)
Lemma run_etl_raise_birth now dir st :
  ¬ birth_dates_ok dir →
  run_etl now dir st =
    (Raise DateParseError,
     {| person_id_map := person_id_map (map_person dir st).2;
        db := db st; warnings := warnings st |}).
Proof.
  intros Hb. unfold run_etl. apply bind_Raise.
  by destruct (map_person_outcome dir st) as [[Hok _]|[_ Hrun]].
Qed.

End Integrity.

Section PipelineResults.
Context `{Calendar}.



Lemma count_rows_singleton table name df :
  count_rows table [(name, df)] = if decide (name = table) then frame_len df else 0.
Proof. unfold count_rows. simpl. case_decide; lia. Qed.

(** X15. After a run of [run_etl] that returns, each of the four tables
    holds the rows it held before and one more row per row of its source
    file, and [validate_counts] with the size of the source file answers True
    for each of them. *)
Theorem run_etl_row_counts now dir st :
  birth_dates_ok dir → condition_starts_ok dir → medication_starts_ok dir →
  ∃ st',
    run_etl now dir st = (Ok (), st') ∧
    count_rows "person" (db st') =
      count_rows "person" (db st) + len (patients_csv dir) ∧
    count_rows "observation_period" (db st') =
      count_rows "observation_period" (db st) + len (patients_csv dir) ∧
    count_rows "condition_occurrence" (db st') =
      count_rows "condition_occurrence" (db st) + len (conditions_csv dir) ∧
    count_rows "drug_exposure" (db st') =
      count_rows "drug_exposure" (db st) + len (medications_csv dir) ∧
    validate_counts (len (patients_csv dir)) "person" st' = (Ok true, st') ∧
    validate_counts (len (patients_csv dir)) "observation_period" st' = (Ok true, st') ∧
    validate_counts (len (conditions_csv dir)) "condition_occurrence" st' = (Ok true, st') ∧
    validate_counts (len (medications_csv dir)) "drug_exposure" st' = (Ok true, st').
Proof.
  intros Hb Hc Hm.
  destruct (run_etl_ok now dir st Hb Hc Hm)
    as (omop_person & obs_period & cond_added & drug_added & warned
        & Hrun & Hlp & Hlo & Hcs & Hds).
  eexists. split; [exact Hrun|]. simpl.
  assert (∀ table,
    count_rows table cond_added =
      if decide ("condition_occurrence" = table) then len (conditions_csv dir) else 0)
    as Hcount_c.
  { intros table. destruct Hcs as [[-> ->]|(omop_cond & -> & Hlen)].
    - unfold count_rows, len. simpl. by case_decide.
    - rewrite count_rows_singleton. unfold frame_len, len. by rewrite Hlen. }
  assert (∀ table,
    count_rows table drug_added =
      if decide ("drug_exposure" = table) then len (medications_csv dir) else 0)
    as Hcount_d.
  { intros table. destruct Hds as [[-> ->]|(omop_drug & -> & Hlen)].
    - unfold count_rows, len. simpl. by case_decide.
    - rewrite count_rows_singleton. unfold frame_len, len. by rewrite Hlen. }
  assert (∀ table,
    count_rows table [("person", PersonFrame omop_person);
                      ("observation_period", ObservationPeriodFrame obs_period)] =
      (if decide ("person" = table) then len (patients_csv dir) else 0) +
      (if decide ("observation_period" = table) then len (patients_csv dir) else 0))
    as Hcount_p.
  { intros table. unfold count_rows, frame_len, len. simpl. rewrite Hlp, Hlo.
    repeat case_decide; lia. }
  assert (∀ table,
    count_rows table (db st ++ [("person", PersonFrame omop_person);
                                ("observation_period", ObservationPeriodFrame obs_period)]
                      ++ cond_added ++ drug_added) =
      count_rows table (db st) +
      (if decide ("person" = table) then len (patients_csv dir) else 0) +
      (if decide ("observation_period" = table) then len (patients_csv dir) else 0) +
      (if decide ("condition_occurrence" = table) then len (conditions_csv dir) else 0) +
      (if decide ("drug_exposure" = table) then len (medications_csv dir) else 0))
    as Hcount.
  { intros table. rewrite !count_rows_app, Hcount_p, Hcount_c, Hcount_d. lia. }
  assert (∀ n table, 0 ≤ n →
    count_rows table (db st ++ [("person", PersonFrame omop_person);
                                ("observation_period", ObservationPeriodFrame obs_period)]
                      ++ cond_added ++ drug_added)
      = count_rows table (db st) + n →
    bool_decide (n ≤ count_rows table
      (db st ++ [("person", PersonFrame omop_person);
                 ("observation_period", ObservationPeriodFrame obs_period)]
        ++ cond_added ++ drug_added)) = true) as Hvalid.
  { intros n table Hn ->. apply bool_decide_eq_true.
    pose proof (count_rows_nonneg table (db st)). lia. }
  assert (count_rows "person" (db st ++ [("person", PersonFrame omop_person);
                 ("observation_period", ObservationPeriodFrame obs_period)]
        ++ cond_added ++ drug_added) = count_rows "person" (db st) + len (patients_csv dir))
    as H1 by (rewrite Hcount; repeat case_decide; (done || lia)).
  assert (count_rows "observation_period" (db st ++ [("person", PersonFrame omop_person);
                 ("observation_period", ObservationPeriodFrame obs_period)]
        ++ cond_added ++ drug_added)
          = count_rows "observation_period" (db st) + len (patients_csv dir))
    as H2 by (rewrite Hcount; repeat case_decide; (done || lia)).
  assert (count_rows "condition_occurrence" (db st ++ [("person", PersonFrame omop_person);
                 ("observation_period", ObservationPeriodFrame obs_period)]
        ++ cond_added ++ drug_added)
          = count_rows "condition_occurrence" (db st) + len (conditions_csv dir))
    as H3 by (rewrite Hcount; repeat case_decide; (done || lia)).
  assert (count_rows "drug_exposure" (db st ++ [("person", PersonFrame omop_person);
                 ("observation_period", ObservationPeriodFrame obs_period)]
        ++ cond_added ++ drug_added)
          = count_rows "drug_exposure" (db st) + len (medications_csv dir))
    as H4 by (rewrite Hcount; repeat case_decide; (done || lia)).
  split; [done|]. split; [done|]. split; [done|]. split; [done|].
  unfold validate_counts, mbind, M_bind, gets, mret, M_ret. simpl.
  rewrite !Hvalid; (done || unfold len; lia).
Qed.


End PipelineResults.

(** ** Count validation *)

Section Validation.
Context `{Calendar}.

(** X17. [validate_counts] called with the size of a frame right after
    [bulk_insert] has appended that frame to the table answers True, whatever
    the table held before. *)
Theorem validate_counts_after_bulk_insert table df st :
  ∃ st',
    (bulk_insert table df;; validate_counts (frame_len df) table) st = (Ok true, st') ∧
    db st' = (db st ++ [(table, df)])%list.
Proof.
  assert (frame_len df ≤ count_rows table (db st ++ [(table, df)])) as Hle.
  { rewrite count_rows_app, count_rows_singleton, decide_True by done.
    pose proof (count_rows_nonneg table (db st)). lia. }
  eexists. split.
  - unfold bulk_insert, validate_counts, modify, gets, mbind, M_bind, mret, M_ret. simpl.
    by rewrite bool_decide_eq_true_2.
  - reflexivity.
Qed.

(** Whatever way [run_etl] ends, the store it leaves extends the store it
    found. *)
Lemma run_etl_appends now dir st :
  ∃ added, db (run_etl now dir st).2 = (db st ++ added)%list.
Proof.
  destruct (map_person_outcome dir st) as [[Hb _]|[Hb _]].
  2: { rewrite (run_etl_raise_birth now dir st Hb). exists []. by rewrite app_nil_r. }
  assert (condition_starts_ok dir ∨ ¬ condition_starts_ok dir) as [Hc|Hc].
  { destruct (map_condition_occurrence_outcome dir st) as [[Hnil _]|[(_ & Hc & _)|[Hc _]]];
      [left|by left|by right].
    unfold condition_starts_ok. rewrite Hnil. constructor. }
  2: { destruct (run_etl_raise_conditions now dir st Hb Hc) as (? & ? & -> & _).
       by eexists. }
  assert (medication_starts_ok dir ∨ ¬ medication_starts_ok dir) as [Hm|Hm].
  { destruct (map_drug_exposure_outcome dir st) as [[Hnil _]|[(_ & Hm & _)|[Hm _]]];
      [left|by left|by right].
    unfold medication_starts_ok. rewrite Hnil. constructor. }
  - destruct (run_etl_ok now dir st Hb Hc Hm) as (? & ? & ? & ? & ? & -> & _). by eexists.
  - destruct (run_etl_raise_medications now dir st Hb Hc Hm) as (? & ? & ? & ? & -> & _).
    by eexists.
Qed.

(** X18. [validate_counts] checks a lower bound on the whole table: once it
    answers True for a count and a table it keeps answering True after any
    run of [run_etl], returned or raised, since runs only append. *)
Theorem validate_counts_stays_true now dir st n table :
  validate_counts n table st = (Ok true, st) →
  validate_counts n table (run_etl now dir st).2 = (Ok true, (run_etl now dir st).2).
Proof.
  unfold validate_counts, gets, mbind, M_bind, mret, M_ret. simpl.
  intros [= Hn]. apply bool_decide_eq_true in Hn.
  destruct (run_etl_appends now dir st) as [added ->].
  rewrite bool_decide_eq_true_2; [done|].
  rewrite count_rows_app. pose proof (count_rows_nonneg table added). lia.
Qed.

End Validation.

(** ** The entry point *)

Section EntryPointResults.
Context `{Calendar}.




(** X20. When patients.csv is missing [main] answers False and leaves the
    store as it was.  When patients.csv is there with birth dates that are
    dates and conditions.csv is missing, [main] answers False as well, after
    the person and observation-period frames have been appended. *)
Theorem main_missing_files now d store :
  (patients_file d = None → main now d store = (false, store)) ∧
  (∀ p, patients_file d = Some p → birth_dates_ok (files d) → conditions_file d = None →
     ∃ omop_person obs_period,
       main now d store =
         (false, (store ++ [("person", PersonFrame omop_person);
                            ("observation_period", ObservationPeriodFrame obs_period)])%list) ∧
       length omop_person = length p ∧ length obs_period = length p).
Proof.
  split.
  - intros Hp. unfold main. case_bool_decide; [done|].
    unfold run_etl_in, reading. by rewrite Hp.
  - intros p Hp Hb Hc. unfold main.
    rewrite bool_decide_eq_false_2 by (unfold glob_csv; by rewrite Hp).
    destruct (person_then_observation_period now (files d) (new_mapper store) Hb)
      as (omop_person & obs_period & Hrun1 & Hrun2 & Hlp & Hlo).
    exists omop_person, obs_period.
    unfold run_etl_in, reading. rewrite Hp, Hc, Hrun1. simpl.
    rewrite Hrun1 in Hrun2. simpl in Hrun2. rewrite Hrun2. simpl.
    split; [done|]. unfold files in Hlp, Hlo. simpl in Hlp, Hlo.
    by rewrite Hp in Hlp, Hlo.
Qed.

End EntryPointResults.

(** ** The de-identification script *)

Section Shift.
Context `{PrepareData.Random}.
Import PrepareData.

(** The rows the script writes, position by position. *)
Lemma prepare_data_condition_row g tables i a0 :
  conditions tables !! i = Some a0 →
  conditions_clean (prepare_data g tables).1 !! i =
    Some (shift_condition (date_shift (prepare_data g tables).1) (select_condition a0)).
Proof.
  intros Ha. unfold prepare_data. destruct (randint _ _ _) as [shift g']. simpl.
  by rewrite !list_lookup_fmap, Ha.
Qed.

Lemma prepare_data_drug_row g tables j b0 :
  drugs tables !! j = Some b0 →
  drugs_clean (prepare_data g tables).1 !! j =
    Some (shift_drug (date_shift (prepare_data g tables).1) (select_drug b0)).
Proof.
  intros Hb. unfold prepare_data. destruct (randint _ _ _) as [shift g']. simpl.
  by rewrite !list_lookup_fmap, Hb.
Qed.

(** X21. The script moves every condition and drug start date by the same
    amount: between any two of the written rows, conditions or drugs, the
    interval between the start dates is the interval between the stored
    dates, so their order is kept; each written row keeps the id of the
    stored row at its position. *)
Theorem date_shift_preserves_intervals g tables :
  let out := (prepare_data g tables).1 in
  (∀ i j a0 b0,
     conditions tables !! i = Some a0 → conditions tables !! j = Some b0 →
     ∃ a b, conditions_clean out !! i = Some a ∧ conditions_clean out !! j = Some b ∧
            condition_occurrence_id a = ConditionOccurrence.condition_occurrence_id a0 ∧
            condition_start_date b - condition_start_date a =
              ConditionOccurrence.condition_start_date b0
              - ConditionOccurrence.condition_start_date a0 ∧
            (condition_start_date a ≤ condition_start_date b ↔
               ConditionOccurrence.condition_start_date a0
               ≤ ConditionOccurrence.condition_start_date b0)) ∧
  (∀ i j a0 b0,
     drugs tables !! i = Some a0 → drugs tables !! j = Some b0 →
     ∃ a b, drugs_clean out !! i = Some a ∧ drugs_clean out !! j = Some b ∧
            drug_exposure_id a = DrugExposure.drug_exposure_id a0 ∧
            drug_exposure_start_date b - drug_exposure_start_date a =
              DrugExposure.drug_exposure_start_date b0
              - DrugExposure.drug_exposure_start_date a0 ∧
            (drug_exposure_start_date a ≤ drug_exposure_start_date b ↔
               DrugExposure.drug_exposure_start_date a0
               ≤ DrugExposure.drug_exposure_start_date b0)) ∧
  (∀ i j a0 b0,
     conditions tables !! i = Some a0 → drugs tables !! j = Some b0 →
     ∃ a b, conditions_clean out !! i = Some a ∧ drugs_clean out !! j = Some b ∧
            drug_exposure_start_date b - condition_start_date a =
              DrugExposure.drug_exposure_start_date b0
              - ConditionOccurrence.condition_start_date a0 ∧
            (condition_start_date a ≤ drug_exposure_start_date b ↔
               ConditionOccurrence.condition_start_date a0
               ≤ DrugExposure.drug_exposure_start_date b0)).
Proof.
  intros out. unfold out. repeat split.
  - intros i j a0 b0 Ha Hb. eexists _, _.
    split; [by apply prepare_data_condition_row|].
    split; [by apply prepare_data_condition_row|]. simpl. lia.
  - intros i j a0 b0 Ha Hb. eexists _, _.
    split; [by apply prepare_data_drug_row|].
    split; [by apply prepare_data_drug_row|]. simpl. lia.
  - intros i j a0 b0 Ha Hb. eexists _, _.
    split; [by apply prepare_data_condition_row|].
    split; [by apply prepare_data_drug_row|]. simpl. lia.
Qed.

(** X22. With a generator whose [randint 1 30] answers within 1..30, the
    shift is between 1 and 30 days, and every written condition and drug
    start date lies exactly that many whole days after the stored one, so
    none is left in place; the person frame is written without any shift,
    with the stored year of birth. *)
Theorem date_shift_moves_forward g tables :
  (∀ g', 1 ≤ (randint 1 30 g').1 ≤ 30) →
  let out := (prepare_data g tables).1 in
  1 ≤ date_shift out ≤ 30 ∧
  (∀ i a0, conditions tables !! i = Some a0 →
     ∃ a, conditions_clean out !! i = Some a ∧
          dt_days (condition_start_date a - ConditionOccurrence.condition_start_date a0)
            = date_shift out ∧
          ConditionOccurrence.condition_start_date a0 < condition_start_date a) ∧
  (∀ j b0, drugs tables !! j = Some b0 →
     ∃ b, drugs_clean out !! j = Some b ∧
          dt_days (drug_exposure_start_date b - DrugExposure.drug_exposure_start_date b0)
            = date_shift out ∧
          DrugExposure.drug_exposure_start_date b0 < drug_exposure_start_date b) ∧
  year_of_birth <$> person_clean out = Person.year_of_birth <$> person tables.
Proof.
  intros Hrange out.
  assert (1 ≤ date_shift out ≤ 30) as Hshift.
  { unfold out, prepare_data. specialize (Hrange (seed 42 g)).
    by destruct (randint _ _ _). }
  assert (∀ x, dt_days (x + Timedelta_of_days (date_shift out) - x) = date_shift out) as Hdays.
  { intros x. unfold dt_days, Timedelta_of_days.
    replace (x + date_shift out * ns_per_day - x) with (date_shift out * ns_per_day) by lia.
    by apply Z.div_mul. }
  split; [done|]. split; [|split].
  - intros i a0 Ha. eexists. split; [by apply prepare_data_condition_row|]. simpl.
    fold out. split; [apply Hdays|]. unfold Timedelta_of_days, ns_per_day. lia.
  - intros j b0 Hb. eexists. split; [by apply prepare_data_drug_row|]. simpl.
    fold out. split; [apply Hdays|]. unfold Timedelta_of_days, ns_per_day. lia.
  - unfold out, prepare_data. destruct (randint _ _ _). simpl.
    by rewrite <- list_fmap_compose.
Qed.

End Shift.

(** ** The further properties at the worked inputs *)

Lemma cohort_dates_ok :
  birth_dates_ok Inputs.cohort ∧ condition_starts_ok Inputs.cohort ∧
  medication_starts_ok Inputs.cohort.
Proof. repeat split; dates_ok. Qed.

(** X1 on the cohort: "M" resolves to 8507. *)
Lemma gender_concept_lookup_witness :
  birth_dates_ok Inputs.cohort ∧
  ∃ (omop_person : list Person.row) st' r,
    map_person Inputs.cohort (new_mapper []) = (Ok (), st') ∧
    omop_person !! 0%nat = Some r ∧
    Person.gender_concept_id r = 8507.
Proof.
  pose proof cohort_dates_ok as (Hok & _). split; [exact Hok|].
  destruct (gender_concept_lookup Inputs.cohort (new_mapper []) 0 Inputs.p1 Hok eq_refl)
    as (omop_person & st' & r & Hrun & _ & Hr & _ & Hgender).
  exists omop_person, st', r. repeat split; assumption.
Defined.

(** X2 on the cohort: "martian" is no key of the race table and resolves to 0. *)
Lemma race_concept_lookup_witness :
  birth_dates_ok Inputs.cohort ∧
  ∃ (omop_person : list Person.row) st' r,
    map_person Inputs.cohort (new_mapper []) = (Ok (), st') ∧
    omop_person !! 1%nat = Some r ∧
    Person.race_source_value r = Some "martian" ∧
    Person.race_concept_id r = 0.
Proof.
  pose proof cohort_dates_ok as (Hok & _). split; [exact Hok|].
  destruct (race_concept_lookup Inputs.cohort (new_mapper []) 1 Inputs.p2 Hok eq_refl)
    as (omop_person & st' & r & Hrun & _ & Hr & Hsrc & Hrace).
  exists omop_person, st', r. repeat split; assumption.
Defined.

(** X3 on the cohort: the first patient was born on 1950-06-15. *)
Lemma person_row_birth_and_provenance_witness :
  birth_dates_ok Inputs.cohort ∧
  ∃ (omop_person : list Person.row) st' r,
    map_person Inputs.cohort (new_mapper []) = (Ok (), st') ∧
    omop_person !! 0%nat = Some r ∧
    Person.year_of_birth r = 1950 ∧ Person.month_of_birth r = 6 ∧
    Person.day_of_birth r = 15 ∧
    Person.person_source_value r = "p1" ∧ Person.location_id r = None.
Proof.
  pose proof cohort_dates_ok as (Hok & _). split; [exact Hok|].
  destruct (person_row_birth_and_provenance Inputs.cohort (new_mapper []) 0 Inputs.p1
              Hok eq_refl)
    as (omop_person & st' & r & b & Hrun & _ & Hr & Hb & _ & Hy & Hm & Hd & Hsrc & _ & Hloc & _).
  vm_compute in Hb. injection Hb as <-.
  exists omop_person, st', r. repeat split; assumption.
Defined.

(** X5 on the cohort: two runs leave two person frames with the ids 1, 2. *)
Lemma map_person_rerun_duplicates_witness :
  birth_dates_ok Inputs.cohort ∧
  ∃ omop_person st1 st2,
    map_person Inputs.cohort (new_mapper []) = (Ok (), st1) ∧
    map_person Inputs.cohort st1 = (Ok (), st2) ∧
    db st2 = [("person", PersonFrame omop_person); ("person", PersonFrame omop_person)] ∧
    Person.person_id <$> omop_person = [1; 2].
Proof.
  pose proof cohort_dates_ok as (Hok & _). split; [exact Hok|].
  destruct (map_person_rerun_duplicates Inputs.cohort (new_mapper []) Hok)
    as (omop_person & st1 & st2 & Hrun1 & Hrun2 & Hdb & Hids & _).
  exists omop_person, st1, st2. repeat split; assumption.
Defined.

(** X6 on the cohort, read at time 7: the first period ends at the death
    date, the second, whose death date reads "unknown", at 7. *)
Lemma observation_period_rows_witness :
  birth_dates_ok Inputs.cohort ∧
  (∃ (obs_period : list ObservationPeriod.row) st' r,
     map_observation_period 7 Inputs.cohort (new_mapper []) = (Ok (), st') ∧
     obs_period !! 0%nat = Some r ∧
     to_datetime_scalar "2020-03-01"
       = Some (ObservationPeriod.observation_period_end_date r)) ∧
  (∃ (obs_period : list ObservationPeriod.row) st' r,
     map_observation_period 7 Inputs.cohort (new_mapper []) = (Ok (), st') ∧
     obs_period !! 1%nat = Some r ∧
     ObservationPeriod.observation_period_end_date r = 7).
Proof.
  pose proof cohort_dates_ok as (Hok & _). split; [exact Hok|]. split.
  - destruct (observation_period_rows 7 Inputs.cohort (new_mapper []) 0 Inputs.p1
                Hok eq_refl)
      as (obs_period & st' & r & b & Hrun & _ & _ & Hr & _ & _ & _ & Hend & _).
    exists obs_period, st', r. split; [exact Hrun|]. split; [exact Hr|].
    rewrite Hend. vm_compute. reflexivity.
  - destruct (observation_period_rows 7 Inputs.cohort (new_mapper []) 1 Inputs.p2
                Hok eq_refl)
      as (obs_period & st' & r & b & Hrun & _ & _ & Hr & _ & _ & _ & Hend & _).
    exists obs_period, st', r. repeat split; assumption.
Defined.


(** X8 on the cohort: the second condition, whose STOP reads "soon", has no
    end date and the status active. *)
Lemma condition_rows_witness :
  condition_starts_ok Inputs.cohort ∧
  ∃ (omop_cond : list ConditionOccurrence.row) st' r,
    map_condition_occurrence Inputs.cohort (new_mapper []) = (Ok (), st') ∧
    omop_cond !! 1%nat = Some r ∧
    ConditionOccurrence.condition_end_date r = None ∧
    ConditionOccurrence.condition_status_concept_id r = 4203942.
Proof.
  pose proof cohort_dates_ok as (_ & Hok & _). split; [exact Hok|].
  destruct (condition_rows Inputs.cohort (new_mapper []) 1 Inputs.c2 Hok eq_refl)
    as (omop_cond & st' & r & s & Hrun & _ & Hr & _ & _ & _ & Hend & _ & Hstatus & _).
  exists omop_cond, st', r. split; [exact Hrun|]. split; [exact Hr|].
  rewrite Hstatus, Hend. vm_compute. split; reflexivity.
Defined.

(** X9 on the cohort: ten days of supply from 2020-01-10 to 2020-01-20. *)
Lemma drug_exposure_rows_witness :
  medication_starts_ok Inputs.cohort ∧
  ∃ (omop_drug : list DrugExposure.row) st' r,
    map_drug_exposure Inputs.cohort (new_mapper []) = (Ok (), st') ∧
    omop_drug !! 0%nat = Some r ∧
    DrugExposure.stop_reason r = Some "R55" ∧
    DrugExposure.days_supply r = 10.
Proof.
  pose proof cohort_dates_ok as (_ & _ & Hok). split; [exact Hok|].
  destruct (drug_exposure_rows Inputs.cohort (new_mapper []) 0 Inputs.m1 Hok eq_refl)
    as (omop_drug & st' & r & s & Hrun & _ & Hr & Hs & _ & _ & _ & Hreason & _ & _ & _ & _
        & Hstop).
  vm_compute in Hs. injection Hs as <-.
  assert (to_datetime_scalar "2020-01-20" = Some 1579478400000000000) as He
    by (vm_compute; reflexivity).
  destruct (Hstop "2020-01-20" 1579478400000000000 eq_refl He) as [_ Hdays].
  exists omop_drug, st', r. split; [exact Hrun|]. split; [exact Hr|].
  split; [exact Hreason|]. unfold ns_per_day in Hdays. lia.
Defined.

(** X10 on the cohort, after a full run has loaded it once already. *)
Lemma event_ids_restart_at_one_witness :
  condition_starts_ok Inputs.cohort ∧ medication_starts_ok Inputs.cohort ∧
  ∃ omop_cond omop_drug st1 st2,
    map_condition_occurrence Inputs.cohort (run_etl 0 Inputs.cohort (new_mapper [])).2
      = (Ok (), st1) ∧
    map_drug_exposure Inputs.cohort st1 = (Ok (), st2) ∧
    ConditionOccurrence.condition_occurrence_id <$> omop_cond = [1; 2; 3] ∧
    DrugExposure.drug_exposure_id <$> omop_drug = [1].
Proof.
  pose proof cohort_dates_ok as (_ & Hc & Hm). split; [exact Hc|]. split; [exact Hm|].
  destruct (event_ids_restart_at_one Inputs.cohort
              (run_etl 0 Inputs.cohort (new_mapper [])).2 Hc Hm)
    as (omop_cond & omop_drug & st1 & st2 & Hrun1 & Hrun2 & _ & Hcids & Hdids);
    [discriminate|discriminate|].
  exists omop_cond, omop_drug, st1, st2. repeat split; assumption.
Defined.

(** X13 on the cohort: the condition of the unlisted patient p7 has no
    person reference, the condition of p2 refers to person 2. *)
Lemma event_person_reference_witness :
  condition_starts_ok Inputs.cohort ∧ medication_starts_ok Inputs.cohort ∧
  (∃ (omop_cond : list ConditionOccurrence.row) st' r,
     map_condition_occurrence Inputs.cohort (map_person Inputs.cohort (new_mapper [])).2
       = (Ok (), st') ∧
     omop_cond !! 2%nat = Some r ∧
     ConditionOccurrence.person_id r = None) ∧
  (∃ (omop_cond : list ConditionOccurrence.row) st' r,
     map_condition_occurrence Inputs.cohort (map_person Inputs.cohort (new_mapper [])).2
       = (Ok (), st') ∧
     omop_cond !! 1%nat = Some r ∧
     is_Some (ConditionOccurrence.person_id r)).
Proof.
  pose proof cohort_dates_ok as (_ & Hc & Hm). split; [exact Hc|]. split; [exact Hm|].
  destruct (event_person_reference Inputs.cohort []
              (map_person Inputs.cohort (new_mapper [])).2 eq_refl Hc Hm) as [Hcond _].
  split.
  - destruct (Hcond 2%nat Inputs.c3 eq_refl)
      as (omop_cond & st' & r & Hrun & _ & Hr & Hiff & _).
    exists omop_cond, st', r. split; [exact Hrun|]. split; [exact Hr|].
    destruct (ConditionOccurrence.person_id r) as [v|]; [|reflexivity].
    exfalso. assert ("p7" ∈ ["p1"; "p2"]) as Hin by (apply Hiff; eexists; reflexivity).
    apply (bool_decide_pack ("p7" ∈ ["p1"; "p2"])) in Hin. vm_compute in Hin.
    exact Hin.
  - destruct (Hcond 1%nat Inputs.c2 eq_refl)
      as (omop_cond & st' & r & Hrun & _ & Hr & Hiff & _).
    exists omop_cond, st', r. split; [exact Hrun|]. split; [exact Hr|].
    apply Hiff. apply (bool_decide_unpack ("p2" ∈ ["p1"; "p2"])). vm_compute. exact I.
Defined.


(** X15 on the cohort, loaded into an empty store. *)
Lemma run_etl_row_counts_witness :
  birth_dates_ok Inputs.cohort ∧ condition_starts_ok Inputs.cohort ∧
  medication_starts_ok Inputs.cohort ∧
  ∃ st',
    run_etl 0 Inputs.cohort (new_mapper []) = (Ok (), st') ∧
    count_rows "person" (db st') = 2 ∧
    count_rows "condition_occurrence" (db st') = 3 ∧
    validate_counts 3 "condition_occurrence" st' = (Ok true, st').
Proof.
  pose proof cohort_dates_ok as (Hb & Hc & Hm).
  split; [exact Hb|]. split; [exact Hc|]. split; [exact Hm|].
  destruct (run_etl_row_counts 0 Inputs.cohort (new_mapper []) Hb Hc Hm)
    as (st' & Hrun & Hp & _ & Hcond & _ & _ & _ & Hvalid & _).
  exists st'. repeat split; assumption.
Defined.


(** X18 on the cohort loaded twice: the check that passed after the first
    load passes after the second. *)
Lemma validate_counts_stays_true_witness :
  validate_counts 2 "person" (run_etl 0 Inputs.cohort (new_mapper [])).2
    = (Ok true, (run_etl 0 Inputs.cohort (new_mapper [])).2) ∧
  validate_counts 2 "person"
      (run_etl 0 Inputs.cohort (run_etl 0 Inputs.cohort (new_mapper [])).2).2
    = (Ok true, (run_etl 0 Inputs.cohort (run_etl 0 Inputs.cohort (new_mapper [])).2).2).
Proof.
  assert (validate_counts 2 "person" (run_etl 0 Inputs.cohort (new_mapper [])).2
            = (Ok true, (run_etl 0 Inputs.cohort (new_mapper [])).2)) as Hfirst
    by (vm_compute; reflexivity).
  split; [exact Hfirst|].
  exact (validate_counts_stays_true 0 Inputs.cohort _ 2 "person" Hfirst).
Defined.


(** X20 on the directory without conditions.csv. *)
Lemma main_missing_files_witness :
  ∃ (omop_person : list Person.row) (obs_period : list ObservationPeriod.row),
    main 0 Inputs.conditions_missing [] =
      (false, [("person", PersonFrame omop_person);
               ("observation_period", ObservationPeriodFrame obs_period)]) ∧
    length omop_person = 2%nat.
Proof.
  assert (birth_dates_ok (files Inputs.conditions_missing)) as Hb by dates_ok.
  destruct (main_missing_files 0 Inputs.conditions_missing []) as [_ Hpartial].
  destruct (Hpartial [Inputs.p1; Inputs.p2] eq_refl Hb eq_refl)
    as (omop_person & obs_period & Hmain & Hlp & _).
  exists omop_person, obs_period. split; assumption.
Defined.

(** X21 on the tables the cohort loads: the drug exposure starts as many
    days after the first condition as it did before the shift. *)
Lemma date_shift_preserves_intervals_witness :
  ∃ a0 b0 a b,
    PrepareData.conditions Inputs.stored !! 0%nat = Some a0 ∧
    PrepareData.drugs Inputs.stored !! 0%nat = Some b0 ∧
    PrepareData.conditions_clean
      (PrepareData.prepare_data (H := PrepareData.Lcg.random) 7 Inputs.stored).1 !! 0%nat
      = Some a ∧
    PrepareData.drugs_clean
      (PrepareData.prepare_data (H := PrepareData.Lcg.random) 7 Inputs.stored).1 !! 0%nat
      = Some b ∧
    PrepareData.drug_exposure_start_date b - PrepareData.condition_start_date a
      = DrugExposure.drug_exposure_start_date b0
        - ConditionOccurrence.condition_start_date a0.
Proof.
  destruct (date_shift_preserves_intervals (H := PrepareData.Lcg.random) 7 Inputs.stored)
    as (_ & _ & Hcross).
  assert (∃ a0, PrepareData.conditions Inputs.stored !! 0%nat = Some a0) as [a0 Ha0]
    by (eexists; vm_compute; reflexivity).
  assert (∃ b0, PrepareData.drugs Inputs.stored !! 0%nat = Some b0) as [b0 Hb0]
    by (eexists; vm_compute; reflexivity).
  destruct (Hcross 0%nat 0%nat a0 b0 Ha0 Hb0) as (a & b & Ha & Hb & Hdiff & _).
  exists a0, b0, a, b. repeat split; assumption.
Defined.

(** X22 with the stand-in generator, whose draws lie within the bounds. *)
Lemma date_shift_moves_forward_witness :
  (∀ g', 1 ≤ (PrepareData.randint (Random := PrepareData.Lcg.random) 1 30 g').1 ≤ 30) ∧
  1 ≤ PrepareData.date_shift
        (PrepareData.prepare_data (H := PrepareData.Lcg.random) 7 Inputs.stored).1 ≤ 30.
Proof.
  assert (∀ g', 1 ≤ (PrepareData.randint (Random := PrepareData.Lcg.random) 1 30 g').1 ≤ 30)
    as Hrange.
  { intros g'. simpl.
    pose proof (Z.mod_pos_bound (PrepareData.Lcg.next g') (30 - 1 + 1)). lia. }
  split; [exact Hrange|].
  exact (proj1 (date_shift_moves_forward (H := PrepareData.Lcg.random) 7 Inputs.stored
                  Hrange)).
Defined.
